(** * SoCo: DIDL-Lite parsing and the music-service upgrade

    A shallow embedding of

    - [soco/data_structures_entry.py]: [from_didl_string], the registries
      [_DIDL_CLASS_TO_CLASS] and [_UPGRADE_FUNCTIONS];
    - [soco/music_services/data_structures_entry.py]:
      [attempt_datastructure_upgrade] and [DIDL_NAME_TO_QUALIFIED_MS_NAME];
    - [soco/playlists.py]: the methods of [PlaylistManager], run against a
      device that answers every remote call from the calls made so far.

    Python exceptions are values of [exn], a computation that may raise and
    that writes to the module logger is a value of [M].  What the two files
    import from elsewhere (the XML library, [ns_tag], the classes of the
    registry, [get_class], [desc_from_uri], [urlparse]) is a parameter of the
    section that uses it. *)

From Stdlib Require Import String Ascii ZArith Lia Bool.
From stdpp Require Import base option list gmap strings pretty list_numbers.

Local Open Scope string_scope.
#[local] Arguments String.append !_ _ / : simpl nomatch.

(** ** Python string operations used by the two modules *)

Module PyStr.

(** [s.startswith(p)] *)
Fixpoint startswith (s p : string) {struct p} : bool :=
  match p with
  | EmptyString => true
  | String c p' =>
      match s with
      | EmptyString => false
      | String d s' => if Ascii.eqb c d then startswith s' p' else false
      end
  end.

(** [s[n:]] and [s[:n]] for a natural [n] *)
Fixpoint drop_str (n : nat) (s : string) : string :=
  match n, s with
  | O, _ => s
  | S _, EmptyString => EmptyString
  | S n', String _ s' => drop_str n' s'
  end.

Fixpoint take_str (n : nat) (s : string) : string :=
  match n, s with
  | O, _ => EmptyString
  | S _, EmptyString => EmptyString
  | S n', String c s' => String c (take_str n' s')
  end.

(** [s.endswith(suf)]: the last [len(suf)] characters of [s] are [suf] *)
Definition endswith (s suf : string) : bool :=
  if (String.length suf <=? String.length s)%nat
  then String.eqb (drop_str (String.length s - String.length suf) s) suf
  else false.

(** [s.find(sub)]: the lowest index where [sub] starts, [-1] when there is
    none.  [find_from s sub i] scans [s], whose first character has index [i]. *)
Fixpoint find_from (s sub : string) (i : Z) : Z :=
  if startswith s sub then i
  else match s with
       | EmptyString => (-1)%Z
       | String _ s' => find_from s' sub (i + 1)
       end.

Definition find (s sub : string) : Z := find_from s sub 0.

(** [sub in s] *)
Fixpoint contains (s sub : string) : bool :=
  if startswith s sub then true
  else match s with
       | EmptyString => false
       | String _ s' => contains s' sub
       end.

(** [s[:k]] for a Python index [k]: a negative [k] counts from the end. *)
Definition slice_to (s : string) (k : Z) : string :=
  if (k <? 0)%Z
  then take_str (Z.to_nat (Z.max 0 (Z.of_nat (String.length s) + k))) s
  else take_str (Z.to_nat k) s.

(** [s.rsplit(sep, 1)] for a one-character [sep]: split at the last [sep].
    [rsplit_last] gives the two sides of the last [sep], if there is one. *)
Fixpoint rsplit_last (sep : ascii) (s : string) : option (string * string) :=
  match s with
  | EmptyString => None
  | String c s' =>
      match rsplit_last sep s' with
      | Some (h, t) => Some (String c h, t)
      | None => if Ascii.eqb c sep then Some (EmptyString, s') else None
      end
  end.

Definition rsplit1 (sep : ascii) (s : string) : list string :=
  match rsplit_last sep s with
  | Some (h, t) => [h; t]
  | None => [s]
  end.

(** [s.split(sep, 1)] for a one-character [sep]: split at the first [sep]. *)
Fixpoint split_first (sep : ascii) (s : string) : option (string * string) :=
  match s with
  | EmptyString => None
  | String c s' =>
      if Ascii.eqb c sep then Some (EmptyString, s')
      else match split_first sep s' with
           | Some (h, t) => Some (String c h, t)
           | None => None
           end
  end.

(** [.lower()] on ASCII letters *)
Definition lower_ascii (c : ascii) : ascii :=
  let n := nat_of_ascii c in
  if ((65 <=? n) && (n <=? 90))%nat then ascii_of_nat (n + 32) else c.

Fixpoint lower (s : string) : string :=
  match s with
  | EmptyString => EmptyString
  | String c s' => String (lower_ascii c) (lower s')
  end.

Fixpoint all_chars (p : ascii -> bool) (s : string) : bool :=
  match s with
  | EmptyString => true
  | String c s' => p c && all_chars p s'
  end.

(** [s.split(sep, n)] for a one-character [sep]: at most [n] cuts, from the
    left. *)
Fixpoint split_max (sep : ascii) (n : nat) (s : string) : list string :=
  match n with
  | O => [s]
  | S n' =>
      match split_first sep s with
      | Some (h, t) => h :: split_max sep n' t
      | None => [s]
      end
  end.

(** The characters of a text, each as a text: what iterating over it
    gives. *)
Fixpoint chars (s : string) : list string :=
  match s with
  | EmptyString => []
  | String c s' => String c EmptyString :: chars s'
  end.

End PyStr.

(** ** Exceptions

    The exceptions the modules raise or let through.  [TypeError] is what
    [in] raises on [None]; [PyError] stands for any other exception of a
    callee (a parse error of the XML library, the [ValueError] of
    [urlparse], an error of a class's [from_element], ...). *)
Inductive exn : Type :=
| DIDLMetadataError (msg : string)
| TypeError (msg : string)
| PyError (kind msg : string).

Inductive result (A : Type) : Type :=
| Ok (a : A)
| Raise (e : exn).
Arguments Ok {A} a.
Arguments Raise {A} e.

(** ** The standard library's [urlparse]

    [soco.compat.urlparse] is [urllib.parse.urlparse] ([urlparse.urlparse] on
    Python 2).  The two modules of the repository only read the [path] of its
    result.  This is the library function on text input with the default
    arguments, as in the releases the repository runs on (2.7, 3.3 to 3.6):
    the scheme split with its shortcut for [http] and its port-number test,
    the network location behind [//], and the [ValueError] for a network
    location with an unmatched square bracket.  Later releases also strip
    leading blanks and control characters, drop tabs and line breaks, drop
    the port-number test and check a bracketed host; on the URIs of the
    examples below all releases agree. *)

Module UrlLib.
Import PyStr.

Record ParseResult := mkParseResult {
  scheme : string;
  netloc : string;
  path : string;
  params : string;
  query : string;
  fragment : string
}.

Definition is_scheme_char (c : ascii) : bool :=
  let n := nat_of_ascii c in
  ((97 <=? n) && (n <=? 122) || (65 <=? n) && (n <=? 90) ||
   (48 <=? n) && (n <=? 57) || (n =? 43) || (n =? 45) || (n =? 46))%nat.

Definition is_digit (c : ascii) : bool :=
  let n := nat_of_ascii c in ((48 <=? n) && (n <=? 57))%nat.

Definition uses_params : list string :=
  [""; "ftp"; "hdl"; "prospero"; "http"; "imap"; "https"; "shttp"; "rtsp";
   "rtspu"; "sip"; "sips"; "mms"; "sftp"; "tel"].

(** [url.find(c, start)] *)
Definition find_start (s sub : string) (start : nat) : Z :=
  find_from (drop_str start s) sub (Z.of_nat start).

(** [url.rfind(c)] for a one-character [c] *)
Definition rfind_char (s : string) (c : ascii) : Z :=
  match rsplit_last c s with
  | Some (h, _) => Z.of_nat (String.length h)
  | None => (-1)%Z
  end.

(** [_splitnetloc(url, 2)]: the network location ends at the first of
    [/], [?], [#] found from index 2 on. *)
Definition _splitnetloc (url : string) : string * string :=
  let step (delim : nat) (c : string) :=
    let wdelim := find_start url c 2 in
    if (0 <=? wdelim)%Z then Nat.min delim (Z.to_nat wdelim) else delim in
  let delim := foldl step (String.length url) ["/"; "?"; "#"] in
  (take_str (delim - 2) (drop_str 2 url), drop_str delim url).

(** The scheme split of [urlsplit]: the text before the first colon is the
    scheme when it is not empty, consists of scheme characters, and what
    follows is not a port number. *)
Definition split_scheme (url : string) : string * string :=
  let i := find url ":" in
  if (0 <? i)%Z then
    let head := take_str (Z.to_nat i) url in
    let rest := drop_str (Z.to_nat i + 1) url in
    if String.eqb head "http" then (lower head, rest)
    else if all_chars is_scheme_char head then
      if String.eqb rest "" || negb (all_chars is_digit rest)
      then (lower head, rest)
      else ("", url)
    else ("", url)
  else ("", url).

(** The check on the network location: a square bracket without its
    partner. *)
Definition unmatched_bracket (netloc : string) : bool :=
  (contains netloc "[" && negb (contains netloc "]")) ||
  (contains netloc "]" && negb (contains netloc "[")).

(** What [urlsplit] does behind the network location: fragment and query
    are cut off the rest. *)
Definition split_rest (scheme netloc url : string) : ParseResult :=
  let '(url, fragment) :=
    match split_first "#" url with
    | Some (u, f) => (u, f)
    | None => (url, "")
    end in
  let '(url, query) :=
    match split_first "?" url with
    | Some (u, q) => (u, q)
    | None => (url, "")
    end in
  mkParseResult scheme netloc url "" query fragment.

Definition urlsplit (url : string) : result ParseResult :=
  let '(scheme, url) := split_scheme url in
  if String.eqb (take_str 2 url) "//" then
    let '(netloc, url) := _splitnetloc url in
    if unmatched_bracket netloc
    then Raise (PyError "ValueError" "Invalid IPv6 URL")
    else Ok (split_rest scheme netloc url)
  else Ok (split_rest scheme "" url).

Definition _splitparams (url : string) : string * string :=
  let i :=
    if contains url "/"
    then find_start url ";" (Z.to_nat (rfind_char url "/"))
    else find url ";" in
  if (i <? 0)%Z then (url, "")
  else (take_str (Z.to_nat i) url, drop_str (Z.to_nat i + 1) url).

Definition urlparse (url : string) : result ParseResult :=
  match urlsplit url with
  | Raise e => Raise e
  | Ok r =>
      if bool_decide (scheme r ∈ uses_params) && contains (path r) ";"
      then let '(u, p) := _splitparams (path r) in
           Ok (mkParseResult (scheme r) (netloc r) u p (query r) (fragment r))
      else Ok r
  end.

End UrlLib.

(** ** The logger and computations *)

(** A call of the module logger [_LOG]: the level, the format string and the
    arguments, kept unformatted as [logging] keeps them. *)
Inductive level : Type := DEBUG | INFO | WARNING | ERROR.

Inductive log_arg (Obj : Type) : Type :=
| ArgStr (s : string)
| ArgObj (o : Obj)
| ArgList (l : list Obj).
Arguments ArgStr {Obj} s.
Arguments ArgObj {Obj} o.
Arguments ArgList {Obj} l.

Record LogRecord (Obj : Type) : Type := mkLog {
  log_level : level;
  log_msg : string;
  log_args : list (log_arg Obj)
}.
Arguments mkLog {Obj} _ _ _.
Arguments log_level {Obj} _.
Arguments log_msg {Obj} _.
Arguments log_args {Obj} _.

(** A computation returns or raises, and leaves the records it logged, in
    order.  What was logged before an exception stays logged. *)
Definition M (Obj A : Type) : Type := (result A * list (LogRecord Obj))%type.

Definition raise {Obj A : Type} (e : exn) : M Obj A := (Raise e, []).

Definition log {Obj : Type} (l : level) (msg : string)
    (args : list (log_arg Obj)) : M Obj unit :=
  (Ok tt, [mkLog l msg args]).

Definition lift {Obj A : Type} (r : result A) : M Obj A := (r, []).

#[export] Instance M_ret {Obj : Type} : MRet (M Obj) :=
  fun A (a : A) => (Ok a, []).

#[export] Instance M_bind {Obj : Type} : MBind (M Obj) :=
  fun A B (f : A -> M Obj B) (m : M Obj A) =>
    match m with
    | (Ok a, l) => let '(r, l') := f a in (r, (l ++ l')%list)
    | (Raise e, l) => (Raise e, l)
    end.

(** [returns m a]: [m] returns [a]; [raises m e]: [m] raises [e]. *)
Definition returns {Obj A : Type} (m : M Obj A) (a : A) : Prop := m.1 = Ok a.
Definition raises {Obj A : Type} (m : M Obj A) (e : exn) : Prop := m.1 = Raise e.

(** ** The data the upgrade reads and builds *)

(** A resource of a DIDL object ([DidlResource] of [soco.data_structures]):
    the upgrade reads its [uri]. *)
Record DidlResource : Type := mkResource {
  uri : string;
  protocol_info : string
}.

(** The keyword arguments of the call [cls(item_id=..., desc=...,
    resources=..., uri=..., metadata_dict=...)] that builds the upgraded
    item. *)
Record MSArgs : Type := mkMSArgs {
  kw_item_id : string;
  kw_desc : string;
  kw_resources : list DidlResource;
  kw_uri : string;
  kw_metadata_dict : gmap string string
}.

(** What [attempt_datastructure_upgrade] asks of the object it is given:
    [didl_item.resources], [didl_item.title] ([None]: the attribute is
    missing and the access raises [AttributeError]) and
    [didl_item.__class__.__name__]. *)
Class DidlLike (Obj : Type) : Type := {
  resources : Obj -> list DidlResource;
  title : Obj -> option string;
  class_name : Obj -> string
}.

(** ** [soco/music_services/data_structures_entry.py] *)

Definition DIDL_NAME_TO_QUALIFIED_MS_NAME : gmap string string :=
  {[ "DidlMusicTrack" := "MediaMetadataTrack" ]}.

Definition upgrade_fail_msg : string :=
  "DATA STRUCTURE UPGRADE FAIL. Unable to upgrade music library " ++
  "data structure to music service data structure because an " ++
  "entry is missing for %s in DIDL_NAME_TO_QUALIFIED_MS_NAME. " ++
  "This should be reported as a bug.".

Section Upgrade.
Context {Obj : Type} `{DidlLike Obj}.

(** [get_class(key)]: the class for a qualified name, called on the
    keyword arguments to build an object; [None] when the call raises
    [KeyError]. *)
Variable get_class : string -> option (MSArgs -> Obj).
(** [desc_from_uri(uri)] of [music_service].  Like the constructor of the
    class, it is code of another module, taken as a function that
    returns. *)
Variable desc_from_uri : string -> string.
(** [urlparse(uri)] of [compat]: the components of the URI, or the
    exception the library raises on it. *)
Variable urlparse : string -> result UrlLib.ParseResult.

Definition attempt_datastructure_upgrade (didl_item : Obj) : M Obj Obj :=
  match resources didl_item with
  | [] =>
      (* IndexError *)
      _ ← log DEBUG "Upgrade not possible, no resources" [];
      mret didl_item
  | resource :: _ =>
      if PyStr.startswith (uri resource) "x-sonos-http" then
        let uri_ := uri resource in
        (* line 44, outside every [try]: an exception of [urlparse] leaves
           the function *)
        parsed ← lift (urlparse uri_);
        let path := UrlLib.path parsed in
        let path := hd "" (PyStr.rsplit1 "." path) in
        let item_id := "11111111" ++ path in
        let metadata : gmap string string :=
          match title didl_item with
          | Some t => {[ "title" := t ]}
          | None => ∅   (* AttributeError *)
          end in
        match DIDL_NAME_TO_QUALIFIED_MS_NAME !! class_name didl_item
              ≫= get_class with
        | None =>
            (* KeyError *)
            _ ← log WARNING upgrade_fail_msg [ArgStr (class_name didl_item)];
            mret didl_item
        | Some cls =>
            let upgraded_item :=
              cls {| kw_item_id := item_id;
                     kw_desc := desc_from_uri (uri resource);
                     kw_resources := resources didl_item;
                     kw_uri := uri_;
                     kw_metadata_dict := metadata |} in
            _ ← log DEBUG "Item %s upgraded to %s"
                  [ArgObj didl_item; ArgObj upgraded_item];
            mret upgraded_item
        end
      else
        _ ← log DEBUG "Upgrade not necessary" [];
        mret didl_item
  end.

End Upgrade.

(** ** [soco/data_structures_entry.py] *)

(** The double-quote character of the final log message. *)
Definition dquote : string := String (ascii_of_nat 34) EmptyString.

Definition created_msg : string :=
  "Created data structures: %.20s (CUT) from Didl string " ++ dquote ++
  "%.20s" ++ dquote ++ " (CUT)".

Section Parser.
Context {Obj Element : Type}.

(** The XML library: [XML.fromstring(string.encode('utf-8'))], iteration
    over the children of an element, [elt.tag], [elt.findtext(path)]; and
    [ns_tag] of [soco.xml]. *)
Variable XML_fromstring : string -> result Element.
Variable iter : Element -> list Element.
Variable tag : Element -> string.
Variable findtext : Element -> string -> option string.
Variable ns_tag : string -> string -> string.

(** A class of the registry, used through its [from_element]. *)
Record DidlClass : Type := mkClass {
  from_element : Element -> M Obj Obj
}.

(** The two registries, as they stand when [from_didl_string] is called. *)
Variable _DIDL_CLASS_TO_CLASS : gmap string DidlClass.
Variable _UPGRADE_FUNCTIONS : list (Obj -> M Obj Obj).

(** Lines 47-48: an unofficial subclass, introduced by [.#], is cut off. *)
Definition strip_subclass (item_class : string) : string :=
  if PyStr.contains item_class ".#"
  then PyStr.slice_to item_class (PyStr.find item_class ".#")
  else item_class.

(** Lines 47-54: the class of a class identifier. *)
Definition resolve_class (item_class : string) : M Obj DidlClass :=
  let item_class := strip_subclass item_class in
  match _DIDL_CLASS_TO_CLASS !! item_class with
  | Some cls => mret cls
  | None => raise (DIDLMetadataError ("Unknown UPnP class: " ++ item_class))
  end.

(** Lines 58-59: [for upgrade in _UPGRADE_FUNCTIONS: item = upgrade(item)]. *)
Fixpoint upgrade_loop (fs : list (Obj -> M Obj Obj)) (item : Obj)
    : M Obj Obj :=
  match fs with
  | [] => mret item
  | upgrade :: fs' => item ← upgrade item; upgrade_loop fs' item
  end.

(** Lines 43-59: the object built for an item or container element. *)
Definition build_item (elt : Element) : M Obj Obj :=
  match findtext elt (ns_tag "upnp" "class") with
  | None => raise (TypeError "argument of type 'NoneType' is not iterable")
  | Some item_class =>
      cls ← resolve_class item_class;
      item ← from_element cls elt;
      upgrade_loop _UPGRADE_FUNCTIONS item
  end.

(** Line 42: the test that sends an element to the first branch. *)
Definition is_item_or_container (elt : Element) : bool :=
  PyStr.endswith (tag elt) "item" || PyStr.endswith (tag elt) "container".

Definition illegal_child (elt : Element) : exn :=
  DIDLMetadataError ("Illegal child of DIDL element: <" ++ tag elt ++ ">").

(** Lines 41-68: the loop over the children of the root; [items] is the
    list built so far. *)
Fixpoint for_elt_in (elts : list Element) (items : list Obj)
    : M Obj (list Obj) :=
  match elts with
  | [] => mret items
  | elt :: rest =>
      if is_item_or_container elt then
        item ← build_item elt;
        for_elt_in rest (items ++ [item])%list
      else
        raise (illegal_child elt)
  end.

Definition from_didl_string (string : string) : M Obj (list Obj) :=
  root ← lift (XML_fromstring string);
  items ← for_elt_in (iter root) [];
  _ ← log ERROR created_msg [ArgList items; ArgStr string];
  mret items.

End Parser.

Arguments from_element {Obj Element} _ _.
Arguments mkClass {Obj Element} _.

(** Exact lookup of a class identifier in the registry, as the
    specification words it: the entry, or the error that carries the
    identifier. *)
Definition exact_lookup {Obj Element : Type}
    (registry : gmap string (@DidlClass Obj Element)) (identifier : string)
    : M Obj (@DidlClass Obj Element) :=
  match registry !! identifier with
  | Some entry => mret entry
  | None => raise (DIDLMetadataError ("Unknown UPnP class: " ++ identifier))
  end.

(** The registry of upgrades once [soco.music_services] is imported: the
    last lines of its [data_structures_entry] append the upgrade. *)
Definition registered {Obj : Type} (fs : list (Obj -> M Obj Obj))
    (upgrade : Obj -> M Obj Obj) : list (Obj -> M Obj Obj) :=
  (fs ++ [upgrade])%list.

(** ** A concrete instance

    Objects, elements and documents on which the functions above run: the
    inputs of the examples below.  The XML library is outside the
    repository: here an element is a small tree, [to_xml] writes the text of
    a tree, and [fromstring] gives back the tree of each of the [documents]
    and rejects every other text. *)

Module Sample.

(** A DIDL object of the local library, or a music-service object built from
    its keyword arguments by the class that [get_class] gave for [ms_key]. *)
Inductive PyObj : Type :=
| Didl (cname : string) (item_id : string) (otitle : option string)
       (res : list DidlResource)
| MusicService (ms_key : string) (args : MSArgs).

#[export] Instance PyObj_DidlLike : DidlLike PyObj := {
  resources o :=
    match o with
    | Didl _ _ _ res => res
    | MusicService _ a => kw_resources a
    end;
  title o :=
    match o with
    | Didl _ _ t _ => t
    | MusicService _ a => kw_metadata_dict a !! "title"
    end;
  class_name o :=
    match o with
    | Didl c _ _ _ => c
    | MusicService k _ => k
    end
}.

Definition get_class (key : string) : option (MSArgs -> PyObj) :=
  Some (MusicService key).

Definition desc_from_uri (_ : string) : string := "RINCON_AssociatedZPUDN".

(** An element: its tag, the text of its [upnp:class] child if it has one,
    its id, title and resources, and its child elements. *)
#[warnings="-register-all"]
Inductive Element : Type :=
| Elem (etag : string) (upnp_class : option string) (eid : string)
       (etitle : string) (eres : list DidlResource)
       (children : list Element).

Definition tag (e : Element) : string :=
  match e with Elem t _ _ _ _ _ => t end.

Definition iter (e : Element) : list Element :=
  match e with Elem _ _ _ _ _ ch => ch end.

Definition NAMESPACES : gmap string string :=
  {[ "dc" := "http://purl.org/dc/elements/1.1/";
     "upnp" := "urn:schemas-upnp-org:metadata-1-0/upnp/";
     "" := "urn:schemas-upnp-org:metadata-1-0/DIDL-Lite/" ]}.

Definition ns_tag (ns_id name : string) : string :=
  "{" ++ default "" (NAMESPACES !! ns_id) ++ "}" ++ name.

Definition findtext (e : Element) (path : string) : option string :=
  match e with
  | Elem _ c _ _ _ _ =>
      if String.eqb path (ns_tag "upnp" "class") then c else None
  end.

Definition res_to_xml (r : DidlResource) : string :=
  "<res protocolInfo='" ++ protocol_info r ++ "'>" ++ uri r ++ "</res>".

Fixpoint to_xml (e : Element) : string :=
  match e with
  | Elem t c i ti rs ch =>
      "<" ++ t ++ (if String.eqb i "" then "" else " id='" ++ i ++ "'") ++
      ">" ++
      match c with
      | Some c => "<upnp:class>" ++ c ++ "</upnp:class>"
      | None => ""
      end ++
      (if String.eqb ti "" then ""
       else "<dc:title>" ++ ti ++ "</dc:title>") ++
      String.concat "" (map res_to_xml rs) ++
      String.concat "" (map to_xml ch) ++
      "</" ++ t ++ ">"
  end.

(** A class of the registry that builds a [Didl] object named [cname]. *)
Definition didl_class (cname : string) : @DidlClass PyObj Element :=
  mkClass (fun e =>
    match e with
    | Elem _ _ i t r _ => mret (Didl cname i (Some t) r)
    end).

Definition _DIDL_CLASS_TO_CLASS : gmap string (@DidlClass PyObj Element) :=
  {[ "object.item.audioItem.musicTrack" := didl_class "DidlMusicTrack";
     "object.container.album" := didl_class "DidlAlbum" ]}.

Definition upgrade : PyObj -> M PyObj PyObj :=
  attempt_datastructure_upgrade get_class desc_from_uri UrlLib.urlparse.

Definition _UPGRADE_FUNCTIONS : list (PyObj -> M PyObj PyObj) :=
  registered [] upgrade.

Definition track (t i ti u : string) : Element :=
  Elem t (Some "object.item.audioItem.musicTrack") i ti
       [mkResource u "http-get:*:audio/mpeg:*"] [].

Definition local_track : Element :=
  track "item" "S://a/one.mp3" "One" "x-file-cifs://a/one.mp3".
Definition vendor_track : Element :=
  Elem "item" (Some "object.item.audioItem.musicTrack.#vendorX") "S://a/two.mp3"
       "Two" [mkResource "x-file-cifs://a/two.mp3" "http-get:*:audio/mpeg:*"]
       [].
Definition album : Element :=
  Elem "container" (Some "object.container.album") "A:ALBUM/x" "X" [] [].
Definition bogus_item : Element :=
  Elem "item" (Some "object.item.audioItem.bogus") "S://a/three.mp3" "Three"
       [] [].
Definition desc_elt : Element := Elem "desc" None "d" "" [] [].
Definition foo_elt : Element := Elem "foo" None "f" "" [] [].
Definition notanitem_elt : Element :=
  track "notanitem" "S://a/four.mp3" "Four" "x-file-cifs://a/four.mp3".

Definition didl (children : list Element) : Element :=
  Elem "DIDL-Lite" None "" "" [] children.

(** The trees of the documents of the examples. *)
Definition documents : list Element :=
  [ didl [local_track; desc_elt; album];
    didl [local_track; album];
    didl [local_track; vendor_track; album];
    didl [foo_elt; bogus_item];
    didl [local_track; bogus_item];
    didl [local_track; foo_elt; album];
    didl [notanitem_elt] ].

Fixpoint lookup_document (docs : list Element) (s : string)
    : result Element :=
  match docs with
  | [] => Raise (PyError "ParseError" "syntax error")
  | root :: docs' =>
      if String.eqb (to_xml root) s then Ok root else lookup_document docs' s
  end.

Definition fromstring : string -> result Element :=
  lookup_document documents.

Definition parse : string -> M PyObj (list PyObj) :=
  from_didl_string fromstring iter tag findtext ns_tag
    _DIDL_CLASS_TO_CLASS _UPGRADE_FUNCTIONS.

(** The item of the upgrade example: a [DidlMusicTrack] titled [Song A] with
    one resource. *)
Definition song_a_resource : DidlResource :=
  mkResource "x-sonos-http://abc123.mp3" "sonos.com-http:*:audio/mpeg:*".
Definition song_a : PyObj :=
  Didl "DidlMusicTrack" "S://lib/abc123.mp3" (Some "Song A") [song_a_resource].
(** An item of a class that the mapping table does not list. *)
Definition album_a : PyObj :=
  Didl "DidlAlbum" "A:ALBUM/a" (Some "Album A") [song_a_resource].
Definition no_resources : PyObj :=
  Didl "DidlMusicTrack" "S://lib/n.mp3" (Some "N") [].
Definition local_song : PyObj :=
  Didl "DidlMusicTrack" "S://a/one.mp3" (Some "One")
       [mkResource "x-file-cifs://a/one.mp3" "http-get:*:audio/mpeg:*"].

End Sample.

(** ** [soco/playlists.py]

    The values the playlist manager handles: [None], integers and texts,
    and lists of these.  A response of the device is a dictionary from
    texts to such values. *)

Inductive atom : Type :=
| ANone
| AInt (z : Z)
| AStr (s : string).

Inductive value : Type :=
| VAtom (a : atom)
| VList (l : list atom).

(** [a == b] *)
Definition atom_eq (a b : atom) : bool :=
  match a, b with
  | ANone, ANone => true
  | AInt x, AInt y => (x =? y)%Z
  | AStr s, AStr t => String.eqb s t
  | _, _ => false
  end.

Fixpoint atoms_eq (l k : list atom) : bool :=
  match l, k with
  | [], [] => true
  | a :: l', b :: k' => atom_eq a b && atoms_eq l' k'
  | _, _ => false
  end.

Definition py_eq (v w : value) : bool :=
  match v, w with
  | VAtom a, VAtom b => atom_eq a b
  | VList l, VList k => atoms_eq l k
  | _, _ => false
  end.

(** [str(a)] *)
Definition py_str (a : atom) : string :=
  match a with
  | ANone => "None"
  | AInt z => pretty z
  | AStr s => s
  end.

(** Iteration over a value: the items of a list, the characters of a text;
    [None] and integers are not iterable. *)
Definition iter_value (v : value) : result (list atom) :=
  match v with
  | VList l => Ok l
  | VAtom (AStr s) => Ok (AStr <$> PyStr.chars s)
  | VAtom (AInt _) => Raise (TypeError "'int' object is not iterable")
  | VAtom ANone => Raise (TypeError "'NoneType' object is not iterable")
  end.

#[export] Instance result_ret : MRet result := fun A (a : A) => Ok a.

#[export] Instance result_bind : MBind result :=
  fun A B (f : A -> result B) (r : result A) =>
    match r with
    | Ok a => f a
    | Raise e => Raise e
    end.

(** [response[key]] *)
Definition getitem (response : gmap string atom) (key : string) : result atom :=
  match response !! key with
  | Some v => Ok v
  | None => Raise (PyError "KeyError" key)
  end.

(** The keyword arguments of [DidlPlaylistContainer(resources=...,
    title=..., parent_id=..., item_id=...)]. *)
Record PlaylistArgs : Type := mkPlaylistArgs {
  pc_resources : list DidlResource;
  pc_title : string;
  pc_parent_id : string;
  pc_item_id : string
}.

(** A playlist argument: a [DidlPlaylistContainer] or the text of its
    [item_id]. *)
Inductive playlist_ref (P : Type) : Type :=
| ById (item_id : string)
| ByObj (p : P).
Arguments ById {P} item_id.
Arguments ByObj {P} p.

(** What the manager asks of the device: a UPnP action of a service with
    its arguments, [music_library._music_lib_search(object_id, start,
    max_items)], [music_library.browse(ml_item=p)] and
    [music_library.get_sonos_playlists()]. *)
Inductive Event (P : Type) : Type :=
| UPnP (service action : string) (args : list (string * value))
| MusicLibSearch (object_id : string) (start max_items : Z)
| Browse (ml_item : P)
| GetSonosPlaylists.
Arguments UPnP {P} service action args.
Arguments MusicLibSearch {P} object_id start max_items.
Arguments Browse {P} ml_item.
Arguments GetSonosPlaylists {P}.

(** A computation on the device: from the events so far to a result and
    the events after it. *)
Definition Dev (E A : Type) : Type := list E -> result A * list E.

#[export] Instance Dev_ret {E : Type} : MRet (Dev E) :=
  fun A (a : A) h => (Ok a, h).

#[export] Instance Dev_bind {E : Type} : MBind (Dev E) :=
  fun A B (f : A -> Dev E B) (m : Dev E A) h =>
    match m h with
    | (Ok a, h') => f a h'
    | (Raise e, h') => (Raise e, h')
    end.

Definition dev_lift {E A : Type} (r : result A) : Dev E A := fun h => (r, h).

Definition dev_raise {E A : Type} (e : exn) : Dev E A := fun h => (Raise e, h).

Definition unbound_response : exn :=
  PyError "UnboundLocalError"
    "local variable 'response' referenced before assignment".

Definition no_match_msg (attr_name : string) (match_ : atom) : string :=
  "No match on " ++ dquote ++ attr_name ++ dquote ++ " for value " ++
  dquote ++ py_str match_ ++ dquote.

Section PlaylistManager.
Context {P Obj : Type} `{DidlLike Obj}.

(** The class [DidlPlaylistContainer] of [soco.data_structures]: its
    constructor, the attribute [item_id] of its objects, and [getattr] on
    them ([None]: the attribute is missing). *)
Variable DidlPlaylistContainer : PlaylistArgs -> P.
Variable pl_item_id : P -> string.
Variable pl_getattr : P -> string -> option atom.
(** [int(s)] on a text. *)
Variable int_str : string -> result Z.
(** The device: the answer to a UPnP action or a search, the
    [total_matches] of a browse, and the playlists, each from the events so
    far. *)
Variable upnp : list (Event P) -> Event P -> result (gmap string atom).
Variable browse_total_matches : list (Event P) -> P -> result Z.
Variable music_library_get_sonos_playlists : list (Event P) -> result (list P).
(** [to_didl_string(item)] of [soco.data_structures]. *)
Variable to_didl_string : Obj -> result string.

(** [int(a)] *)
Definition py_int (a : atom) : result Z :=
  match a with
  | AInt z => Ok z
  | AStr s => int_str s
  | ANone =>
      Raise (TypeError
        "int() argument must be a string, a bytes-like object or a number, not 'NoneType'")
  end.

Definition call (e : Event P) : Dev (Event P) (gmap string atom) :=
  fun h => (upnp h e, (h ++ [e])%list).

Definition browse (p : P) : Dev (Event P) Z :=
  fun h => (browse_total_matches h p, (h ++ [Browse p])%list).

(** [getattr(sonos_playlist, 'item_id', sonos_playlist)] *)
Definition object_id_of (sonos_playlist : playlist_ref P) : string :=
  match sonos_playlist with
  | ById s => s
  | ByObj p => pl_item_id p
  end.

Definition _make_playlist_container (item_id title : string) : result P :=
  match PyStr.split_max ":" 2 item_id !! 1%nat with
  | None => Raise (PyError "IndexError" "list index out of range")
  | Some obj_id =>
      let uri_ := "file:///jffs/settings/savedqueues.rsq#" ++ obj_id in
      let res := [mkResource uri_ "x-rincon-playlist:*:*:*"] in
      Ok (DidlPlaylistContainer
            {| pc_resources := res; pc_title := title;
               pc_parent_id := "SQ:"; pc_item_id := item_id |})
  end.

Definition create_sonos_playlist (title : string) : Dev (Event P) P :=
  response ← call (UPnP "avTransport" "CreateSavedQueue"
                     [("InstanceID", VAtom (AInt 0));
                      ("Title", VAtom (AStr title));
                      ("EnqueuedURI", VAtom (AStr ""));
                      ("EnqueuedURIMetaData", VAtom (AStr ""))]);
  item_id ← dev_lift (getitem response "AssignedObjectID");
  match item_id with
  | AStr item_id => dev_lift (_make_playlist_container item_id title)
  | AInt _ =>
      dev_raise (PyError "AttributeError"
                   "'int' object has no attribute 'split'")
  | ANone =>
      dev_raise (PyError "AttributeError"
                   "'NoneType' object has no attribute 'split'")
  end.

Definition remove_sonos_playlist (sonos_playlist : playlist_ref P)
    : Dev (Event P) (gmap string atom) :=
  let object_id := object_id_of sonos_playlist in
  call (UPnP "contentDirectory" "DestroyObject"
          [("ObjectID", VAtom (AStr object_id))]).

Definition add_item_to_sonos_playlist (queueable_item : Obj)
    (sonos_playlist : P) : Dev (Event P) unit :=
  response ← call (MusicLibSearch (pl_item_id sonos_playlist) 0 1);
  update_id ← dev_lift (getitem response "UpdateID");
  metadata ← dev_lift (to_didl_string queueable_item);
  match resources queueable_item with
  | [] => dev_raise (PyError "IndexError" "list index out of range")
  | r :: _ =>
      _ ← call (UPnP "avTransport" "AddURIToSavedQueue"
                  [("InstanceID", VAtom (AInt 0));
                   ("UpdateID", VAtom update_id);
                   ("ObjectID", VAtom (AStr (pl_item_id sonos_playlist)));
                   ("EnqueuedURI", VAtom (AStr (uri r)));
                   ("EnqueuedURIMetaData", VAtom (AStr metadata));
                   ("AddAtIndex", VAtom (AInt 4294967295))]);
      mret tt
  end.

(** Lines 229-239: the lists of tracks and positions for the three kinds of
    [tracks]: a text ([UnicodeType] of [soco.compat] is the type of texts),
    an integer, anything else. *)
Definition track_and_position_lists (tracks new_pos : value)
    : result (list value * list value) :=
  match tracks with
  | VAtom (AStr _) => Ok ([tracks], [new_pos])
  | VAtom (AInt _) =>
      let new_pos :=
        match new_pos with
        | VAtom ANone => VAtom (AStr "")
        | _ => new_pos
        end in
      Ok ([tracks], [new_pos])
  | _ =>
      iter_value tracks ≫= fun xs : list atom =>
      iter_value new_pos ≫= fun ys : list atom =>
      Ok ((fun x => VAtom (AStr (py_str x))) <$> xs,
          (fun x => VAtom (AStr (match x with
                                 | ANone => ""
                                 | _ => py_str x
                                 end))) <$> ys)
  end.

Definition reorder_event (object_id : string) (update_id : atom)
    (track position : value) : Event P :=
  UPnP "avTransport" "ReorderTracksInSavedQueue"
    [("InstanceID", VAtom (AInt 0));
     ("ObjectID", VAtom (AStr object_id));
     ("UpdateID", VAtom update_id);
     ("TrackList", track);
     ("NewPositionList", position)].

(** Lines 247-258: the loop over the pairs; [change], [update_id] and
    [response] are the variables of these names ([response] unbound:
    [None]). *)
Fixpoint reorder_loop (object_id : string) (pairs : list (value * value))
    (change : Z) (update_id : atom) (response : option (gmap string atom))
    : Dev (Event P) (Z * atom * option (gmap string atom)) :=
  match pairs with
  | [] => mret (change, update_id, response)
  | (track, position) :: rest =>
      if py_eq track position then
        reorder_loop object_id rest change update_id response
      else
        response ← call (reorder_event object_id update_id track position);
        d ← dev_lift (getitem response "QueueLengthChange" ≫= py_int);
        u ← dev_lift (getitem response "NewUpdateID" ≫= py_int);
        reorder_loop object_id rest (change + d) (AInt u) (Some response)
  end.

Definition reorder_sonos_playlist (sonos_playlist : playlist_ref P)
    (tracks new_pos : value) (update_id : atom)
    : Dev (Event P) (gmap string atom) :=
  let object_id := object_id_of sonos_playlist in
  lists ← dev_lift (track_and_position_lists tracks new_pos);
  start ←
    (if atom_eq update_id (AInt 0) then
       response ← call (MusicLibSearch object_id 0 1);
       update_id ← dev_lift (getitem response "UpdateID");
       mret (update_id, Some response)
     else mret (update_id, None));
  final ← reorder_loop object_id (zip lists.1 lists.2) 0 start.1 start.2;
  match final.2 with
  | None => dev_raise unbound_response
  | Some response =>
      length ← dev_lift (getitem response "NewQueueLength" ≫= py_int);
      mret ({[ "change" := AInt final.1.1;
               "update_id" := final.1.2;
               "length" := AInt length ]} : gmap string atom)
  end.

Definition get_sonos_playlists : Dev (Event P) (list P) :=
  fun h => (music_library_get_sonos_playlists h,
            (h ++ [GetSonosPlaylists])%list).

(** Lines 386-390: the first playlist whose attribute equals [match_]. *)
Fixpoint first_match (attr_name : string) (match_ : atom)
    (playlists : list P) : result P :=
  match playlists with
  | [] => Raise (PyError "ValueError" (no_match_msg attr_name match_))
  | sonos_playlist :: rest =>
      match pl_getattr sonos_playlist attr_name with
      | None =>
          Raise (PyError "AttributeError"
                   ("'DidlPlaylistContainer' object has no attribute '" ++
                    attr_name ++ "'"))
      | Some v =>
          if atom_eq v match_ then Ok sonos_playlist
          else first_match attr_name match_ rest
      end
  end.

Definition get_sonos_playlist_by_attr (attr_name : string) (match_ : atom)
    : Dev (Event P) P :=
  playlists ← get_sonos_playlists;
  dev_lift (first_match attr_name match_ playlists).

Definition clear_sonos_playlist (sonos_playlist : playlist_ref P)
    (update_id : atom) : Dev (Event P) (gmap string atom) :=
  sonos_playlist ←
    match sonos_playlist with
    | ByObj p => mret p
    | ById s => get_sonos_playlist_by_attr "item_id" (AStr s)
    end;
  count ← browse sonos_playlist;
  let tracks :=
    String.concat "," ((fun x => py_str (AInt x)) <$> seqZ 0 count) in
  if negb (String.eqb tracks "") then
    reorder_sonos_playlist (ByObj sonos_playlist) (VAtom (AStr tracks))
      (VAtom (AStr "")) update_id
  else
    mret ({[ "change" := AInt 0;
             "update_id" := update_id;
             "length" := AInt count ]} : gmap string atom).

Definition move_in_sonos_playlist (sonos_playlist : playlist_ref P)
    (track new_pos update_id : atom) : Dev (Event P) (gmap string atom) :=
  t ← dev_lift (py_int track);
  n ← dev_lift (py_int new_pos);
  reorder_sonos_playlist sonos_playlist (VAtom (AInt t)) (VAtom (AInt n))
    update_id.

Definition remove_from_sonos_playlist (sonos_playlist : playlist_ref P)
    (track update_id : atom) : Dev (Event P) (gmap string atom) :=
  t ← dev_lift (py_int track);
  reorder_sonos_playlist sonos_playlist (VAtom (AInt t)) (VAtom ANone)
    update_id.

End PlaylistManager.

(** The pairs of a reorder that are moves: those whose track differs from
    its position. *)
Definition moves (pairs : list (value * value)) : list (value * value) :=
  List.filter (fun tp => negb (py_eq tp.1 tp.2)) pairs.

(** What the device answers to the events [evs], sent one after another
    after the events [h]. *)
Fixpoint answers {P : Type}
    (upnp : list (Event P) -> Event P -> result (gmap string atom))
    (h evs : list (Event P)) : list (result (gmap string atom)) :=
  match evs with
  | [] => []
  | e :: evs' => upnp h e :: answers upnp (h ++ [e])%list evs'
  end.

Definition sum_Z (l : list Z) : Z := foldr Z.add 0%Z l.

(** ** A scripted device

    Playlists are their keyword arguments; the device answers a reorder
    with a length change of -1 for a removal and 0 for a move, an update id
    that grows with the events, and a queue length of 2; a search with the
    update id 7; a create with the object id [SQ:12]. *)

Module Device.

Definition P : Type := PlaylistArgs.

Definition DidlPlaylistContainer (a : PlaylistArgs) : P := a.

Definition getattr (p : P) (name : string) : option atom :=
  if String.eqb name "title" then Some (AStr (pc_title p))
  else if String.eqb name "item_id" then Some (AStr (pc_item_id p))
  else if String.eqb name "parent_id" then Some (AStr (pc_parent_id p))
  else None.

Fixpoint digits (s : string) (acc : Z) : result Z :=
  match s with
  | EmptyString => Ok acc
  | String c s' =>
      if UrlLib.is_digit c
      then digits s' (10 * acc + Z.of_nat (nat_of_ascii c) - 48)%Z
      else Raise (PyError "ValueError" "invalid literal for int()")
  end.

Definition int_str (s : string) : result Z :=
  match s with
  | EmptyString => Raise (PyError "ValueError" "invalid literal for int()")
  | String c s' =>
      if Ascii.eqb c "-"
      then (if String.eqb s' "" then digits "x" 0
            else digits s' 0 ≫= fun z : Z => Ok (- z)%Z)
      else digits s 0
  end.

Definition removal (args : list (string * value)) : bool :=
  match args with
  | [_; _; _; _; (_, VAtom (AStr EmptyString))] => true
  | _ => false
  end.

Definition upnp (h : list (Event P)) (e : Event P)
    : result (gmap string atom) :=
  match e with
  | UPnP service action args =>
      if String.eqb action "ReorderTracksInSavedQueue" then
        Ok {[ "QueueLengthChange" := AStr (if removal args then "-1" else "0");
              "NewUpdateID" := AStr (pretty (Z.of_nat (length h) + 10)%Z);
              "NewQueueLength" := AStr "2" ]}
      else if String.eqb action "CreateSavedQueue" then
        Ok {[ "AssignedObjectID" := AStr "SQ:12" ]}
      else Raise (PyError "SoCoUPnPException" "UPnP Error 402")
  | MusicLibSearch _ _ _ => Ok {[ "UpdateID" := AStr "7" ]}
  | _ => Raise (PyError "SoCoUPnPException" "UPnP Error 402")
  end.

Definition playlist (i t : string) : P :=
  {| pc_resources := []; pc_title := t; pc_parent_id := "SQ:";
     pc_item_id := i |}.

Definition playlists : list P :=
  [playlist "SQ:1" "Morning"; playlist "SQ:3" "Party";
   playlist "SQ:4" "Party"].

Definition browse_total_matches (_ : list (Event P)) (p : P) : result Z :=
  Ok (if String.eqb (pc_item_id p) "SQ:3" then 3 else 0)%Z.

Definition get_sonos_playlists (_ : list (Event P)) : result (list P) :=
  Ok playlists.

Definition to_didl_string (_ : Sample.PyObj) : result string :=
  Ok "<DIDL-Lite></DIDL-Lite>".

Definition reorder :=
  reorder_sonos_playlist pc_item_id int_str upnp.
Definition clear :=
  clear_sonos_playlist pc_item_id getattr int_str upnp browse_total_matches
    get_sonos_playlists.
Definition move_in := move_in_sonos_playlist pc_item_id int_str upnp.
Definition remove_from := remove_from_sonos_playlist pc_item_id int_str upnp.
Definition by_attr := get_sonos_playlist_by_attr getattr get_sonos_playlists.
Definition create := create_sonos_playlist DidlPlaylistContainer upnp.
Definition add_item :=
  add_item_to_sonos_playlist (H := Sample.PyObj_DidlLike) pc_item_id upnp
    to_didl_string.

End Device.

(** ** More documents

    Further inputs on the same trees: an item that has no [upnp:class]
    child, the empty document, documents of one child, and an upgrade that
    raises. *)

Module Docs.
Import Sample.

Definition noclass_item : Element :=
  Elem "item" None "S://a/five.mp3" "Five" [] [].

(** An item of the local library whose resource is played from a music
    service. *)
Definition service_track : Element :=
  track "item" "S://a/six.mp3" "Six" "x-sonos-http:track%3a6.mp3?sid=2&sn=4".

Definition documents : list Element :=
  [ didl [];
    didl [local_track];
    didl [album];
    didl [local_track; album];
    didl [local_track; noclass_item; album];
    didl [local_track; service_track];
    didl [bogus_item; foo_elt];
    didl [foo_elt; local_track] ].

Definition fromstring : string -> result Element :=
  lookup_document documents.

Definition parse : string -> M PyObj (list PyObj) :=
  from_didl_string fromstring iter tag findtext ns_tag
    _DIDL_CLASS_TO_CLASS _UPGRADE_FUNCTIONS.

(** An upgrade that raises, and the parser with it in the registry. *)
Definition failing_upgrade (_ : PyObj) : M PyObj PyObj :=
  raise (PyError "RuntimeError" "upgrade failed").

Definition parse_failing : string -> M PyObj (list PyObj) :=
  from_didl_string fromstring iter tag findtext ns_tag
    _DIDL_CLASS_TO_CLASS (registered _UPGRADE_FUNCTIONS failing_upgrade).

(** An item without a title, and a [get_class] that knows no class. *)
Definition untitled_song : PyObj :=
  Didl "DidlMusicTrack" "S://lib/u.mp3" None
       [mkResource "x-sonos-http:/dir.v2/u.mp3?sid=2" "sonos.com-http:*:audio/mpeg:*";
        mkResource "x-file-cifs://a/u.mp3" "http-get:*:audio/mpeg:*"].

Definition no_class (_ : string) : option (MSArgs -> PyObj) := None.

(** An album played from a music service whose URI has an unmatched
    bracket in its network location. *)
Definition bracket_resource : DidlResource :=
  mkResource "x-sonos-http://[abc/x.mp3" "sonos.com-http:*:audio/mpeg:*".
Definition bracket_album : PyObj :=
  Didl "DidlAlbum" "A:ALBUM/b" (Some "Album B") [bracket_resource].

Definition upgrade_no_class : PyObj -> M PyObj PyObj :=
  attempt_datastructure_upgrade no_class desc_from_uri UrlLib.urlparse.

End Docs.

(** * Facts about the string operations *)

Module PyStrFacts.
Import PyStr.

Lemma str_app_nil_r (s : string) : s ++ "" = s.
Proof. induction s as [|c s IH]; simpl; [done | by rewrite IH]. Qed.

Lemma str_app_assoc (a b c : string) : (a ++ b) ++ c = a ++ b ++ c.
Proof. induction a as [|x a IH]; simpl; [done | by rewrite IH]. Qed.

Lemma str_length_app (a b : string) :
  String.length (a ++ b) = String.length a + String.length b.
Proof. induction a as [|x a IH]; simpl; [done | by rewrite IH]. Qed.

Lemma startswith_app (p t : string) : startswith (p ++ t) p = true.
Proof.
  induction p as [|c p IH]; simpl; [done |].
  by rewrite Ascii.eqb_refl.
Qed.

Lemma startswith_spec (s p : string) :
  startswith s p = true <-> exists t, s = p ++ t.
Proof.
  split.
  - revert s. induction p as [|c p IH]; intros s Hs; simpl in *.
    + by exists s.
    + destruct s as [|d s]; [done |].
      destruct (Ascii.eqb_spec c d) as [->|]; [| done].
      destruct (IH _ Hs) as [t ->]. by exists t.
  - intros [t ->]. apply startswith_app.
Qed.

Lemma drop_str_app (p s : string) : drop_str (String.length p) (p ++ s) = s.
Proof. induction p as [|c p IH]; simpl; done. Qed.

Lemma take_str_app (p s : string) : take_str (String.length p) (p ++ s) = p.
Proof. induction p as [|c p IH]; simpl; [by destruct s | by rewrite IH]. Qed.

Lemma take_drop_str (n : nat) (s : string) : take_str n s ++ drop_str n s = s.
Proof.
  revert s. induction n as [|n IH]; intros [|c s]; simpl; try done.
  by rewrite IH.
Qed.

(** Two texts that end alike: suffixes of the same length are equal. *)
Lemma str_app_inj_suffix (a b c d : string) :
  String.length b = String.length d -> a ++ b = c ++ d -> b = d.
Proof.
  intros Hlen Heq.
  assert (Hac : String.length a = String.length c).
  { apply (f_equal String.length) in Heq. rewrite !str_length_app in Heq. lia. }
  apply (f_equal (drop_str (String.length a))) in Heq.
  rewrite drop_str_app in Heq. rewrite Hac, drop_str_app in Heq. done.
Qed.

(** [endswith] is the suffix test. *)
Lemma endswith_spec (s suf : string) :
  endswith s suf = true <-> exists p, s = p ++ suf.
Proof.
  unfold endswith. split.
  - destruct (Nat.leb_spec (String.length suf) (String.length s)); [| done].
    intros Heq%String.eqb_eq.
    exists (take_str (String.length s - String.length suf) s).
    pose proof (take_drop_str (String.length s - String.length suf) s) as Htd.
    by rewrite Heq in Htd.
  - intros [p ->]. rewrite str_length_app.
    destruct (Nat.leb_spec (String.length suf)
                (String.length p + String.length suf)); [| lia].
    replace (String.length p + String.length suf - String.length suf)
      with (String.length p) by lia.
    rewrite drop_str_app. apply String.eqb_refl.
Qed.

Lemma endswith_false (s suf : string) :
  endswith s suf = false <-> ~ exists p, s = p ++ suf.
Proof.
  rewrite <- endswith_spec. by destruct (endswith s suf).
Qed.

(** A text that ends with [suf] ends with every ending of [suf]. *)
Lemma endswith_weaken (s a b : string) :
  endswith s (a ++ b) = true -> endswith s b = true.
Proof.
  rewrite !endswith_spec. intros [p ->]. exists (p ++ a).
  by rewrite str_app_assoc.
Qed.

(** Texts with different endings of the same length. *)
Lemma endswith_other (s a b : string) :
  String.length a = String.length b -> a <> b ->
  endswith s a = true -> endswith s b = false.
Proof.
  intros Hlen Hne [p ->]%endswith_spec. apply endswith_false.
  intros [q Hq]. apply Hne. by eapply str_app_inj_suffix.
Qed.

(** A tag that ends with [desc] ends neither with [item] nor with
    [container]. *)
Lemma endswith_desc (s : string) :
  endswith s "desc" = true ->
  endswith s "item" = false /\ endswith s "container" = false.
Proof.
  intros Hs. split.
  - by apply (endswith_other s "desc" "item").
  - destruct (endswith s "container") eqn:Hc; [| done].
    apply (endswith_weaken s "conta" "iner") in Hc.
    by rewrite (endswith_other s "desc" "iner") in Hc.
Qed.

(** *** The marker [.#] *)

(** Behind a text that is not empty, the marker does not change whether the
    text starts with the marker. *)
Lemma startswith_marker_app (c : ascii) (p t : string) :
  startswith (String c (p ++ ".#" ++ t)) ".#" = startswith (String c p) ".#".
Proof.
  cbn [startswith]. destruct (Ascii.eqb "." c); [| done].
  by destruct p as [|d p].
Qed.

(** In [p ++ ".#" ++ t], with no marker in [p], the first marker is the one
    written: [find] gives the length of [p]. *)
Lemma find_from_marker (p t : string) (i : Z) :
  contains p ".#" = false ->
  find_from (p ++ ".#" ++ t) ".#" i = (i + Z.of_nat (String.length p))%Z.
Proof.
  revert i. induction p as [|c p IH]; intros i Hp.
  - simpl. lia.
  - cbn [contains] in Hp.
    destruct (startswith (String c p) ".#") eqn:Hsw; [done |].
    change (String c p ++ ".#" ++ t) with (String c (p ++ ".#" ++ t)).
    cbn [find_from]. rewrite startswith_marker_app, Hsw.
    rewrite IH by done. cbn [String.length]. lia.
Qed.

Lemma contains_marker_app (p t : string) : contains (p ++ ".#" ++ t) ".#" = true.
Proof.
  induction p as [|c p IH]; [done |].
  change (String c p ++ ".#" ++ t) with (String c (p ++ ".#" ++ t)).
  cbn [contains]. by destruct (startswith _ _).
Qed.

(** A text with a marker is some [p ++ ".#" ++ t] with no marker in [p]. *)
Lemma contains_marker_split (s : string) :
  contains s ".#" = true ->
  exists p t, s = p ++ ".#" ++ t /\ contains p ".#" = false.
Proof.
  induction s as [|c s IH]; [done |].
  cbn [contains]. destruct (startswith (String c s) ".#") eqn:Hsw.
  - intros _. apply startswith_spec in Hsw as [t Ht].
    exists "", t. by rewrite Ht.
  - intros (p & t & -> & Hp)%IH. exists (String c p), t. split; [done |].
    cbn [contains]. rewrite <- (startswith_marker_app c p t).
    by rewrite Hsw.
Qed.

Lemma slice_to_length (p t : string) :
  slice_to (p ++ t) (Z.of_nat (String.length p)) = p.
Proof.
  unfold slice_to. destruct (Z.ltb_spec (Z.of_nat (String.length p)) 0); [lia |].
  by rewrite Nat2Z.id, take_str_app.
Qed.

(** [s.rsplit(".", 1)[0]] cuts a last segment that has no dot. *)
Lemma rsplit_last_none (sep : ascii) (s : string) :
  rsplit_last sep s = None <-> contains s (String sep "") = false.
Proof.
  induction s as [|c s IH]; [done |].
  cbn [rsplit_last contains startswith].
  destruct (rsplit_last sep s) as [[h t]|].
  - split; [done |]. destruct (Ascii.eqb sep c); [done |].
    intros Hc. by apply IH in Hc.
  - rewrite (Ascii.eqb_sym c sep). destruct (Ascii.eqb sep c); [done |].
    split; [intros _; by apply IH | done].
Qed.

Lemma rsplit1_extension (sep : ascii) (p ext : string) :
  contains ext (String sep "") = false ->
  rsplit1 sep (p ++ String sep ext) = [p; ext].
Proof.
  intros Hext. apply rsplit_last_none in Hext. unfold rsplit1.
  assert (rsplit_last sep (p ++ String sep ext) = Some (p, ext)) as ->; [| done].
  induction p as [|c p IH]; simpl.
  - by rewrite Hext, Ascii.eqb_refl.
  - by rewrite IH.
Qed.

End PyStrFacts.

(** * Facts about computations *)

Section Computations.
Context {Obj : Type}.
Implicit Types (e : exn) (l : list (LogRecord Obj)).

Lemma bind_Ok {A B : Type} (a : A) l (f : A -> M Obj B) :
  ((Ok a, l) : M Obj A) ≫= f = ((f a).1, (l ++ (f a).2)%list).
Proof. unfold mbind, M_bind. destruct (f a) as [r l']. reflexivity. Qed.

Lemma bind_Raise {A B : Type} e l (f : A -> M Obj B) :
  ((Raise e, l) : M Obj A) ≫= f = (Raise e, l).
Proof. done. Qed.

Lemma bind_mret_l {A B : Type} (a : A) (f : A -> M Obj B) : mret a ≫= f = f a.
Proof. unfold mret, M_ret. rewrite bind_Ok. by destruct (f a). Qed.

Lemma bind_mret_r {A : Type} (m : M Obj A) : m ≫= mret = m.
Proof.
  destruct m as [[a|e] l]; [| done].
  rewrite bind_Ok. simpl. by rewrite app_nil_r.
Qed.

Lemma bind_assoc {A B C : Type} (m : M Obj A) (f : A -> M Obj B)
    (g : B -> M Obj C) :
  (m ≫= f) ≫= g = m ≫= (fun a => f a ≫= g).
Proof.
  destruct m as [[a|e] l]; [| done].
  rewrite !bind_Ok. destruct (f a) as [[b|e] l1]; cbn [fst snd]; [| done].
  rewrite !bind_Ok. cbn [fst snd]. by rewrite app_assoc.
Qed.

Lemma bind_lift_Ok {A B : Type} (a : A) (f : A -> M Obj B) :
  lift (Ok a) ≫= f = f a.
Proof. apply bind_mret_l. Qed.

(** A computation returns or raises, and not both. *)
Lemma returns_or_raises {A : Type} (m : M Obj A) :
  (exists a, returns m a) \/ (exists e, raises m e).
Proof. unfold returns, raises. destruct m.1; eauto. Qed.

Lemma raises_not_returns {A : Type} (m : M Obj A) e (a : A) :
  raises m e -> ~ returns m a.
Proof. unfold returns, raises. congruence. Qed.

Lemma returns_inj {A : Type} (m : M Obj A) (a b : A) :
  returns m a -> returns m b -> a = b.
Proof. unfold returns. congruence. Qed.

Lemma returns_bind {A B : Type} (m : M Obj A) (f : A -> M Obj B) (b : B) :
  returns (m ≫= f) b <-> exists a, returns m a /\ returns (f a) b.
Proof.
  unfold returns. destruct m as [[a|e] l].
  - rewrite bind_Ok. simpl. split; [by exists a |].
    by intros (a' & [= <-] & Hb).
  - rewrite bind_Raise. simpl. split; [done | by intros (a & [=] & _)].
Qed.

Lemma raises_bind {A B : Type} (m : M Obj A) (f : A -> M Obj B) e :
  raises (m ≫= f) e <->
  raises m e \/ exists a, returns m a /\ raises (f a) e.
Proof.
  unfold returns, raises. destruct m as [[a|e'] l].
  - rewrite bind_Ok. simpl. split; [intros; right; by exists a |].
    intros [Hm | (a' & Ha & Hb)]; [done |]. by injection Ha as <-.
  - rewrite bind_Raise. simpl. split; [intros [= ->]; by left |].
    intros [[= ->] | (a & Ha & _)]; done.
Qed.

Lemma returns_mret {A : Type} (a b : A) :
  returns (mret a : M Obj A) b <-> a = b.
Proof. unfold returns, mret, M_ret. simpl. split; congruence. Qed.

Lemma raises_raise {A : Type} e e' : raises (raise e : M Obj A) e' <-> e = e'.
Proof. unfold raises, raise. simpl. split; congruence. Qed.


End Computations.

Lemma bind_ext {Obj A B : Type} (m : M Obj A) (f g : A -> M Obj B) :
  (forall a, f a = g a) -> m ≫= f = m ≫= g.
Proof.
  intros Hfg. destruct m as [[a|e] l]; [| done].
  by rewrite !bind_Ok, Hfg.
Qed.

(** * Facts about the parser *)

Lemma strip_subclass_plain (s : string) :
  PyStr.contains s ".#" = false -> strip_subclass s = s.
Proof. unfold strip_subclass. by intros ->. Qed.

Lemma strip_subclass_marker (p t : string) :
  PyStr.contains p ".#" = false -> strip_subclass (p ++ ".#" ++ t) = p.
Proof.
  intros Hp. unfold strip_subclass, PyStr.find.
  rewrite PyStrFacts.contains_marker_app, PyStrFacts.find_from_marker by done.
  apply PyStrFacts.slice_to_length.
Qed.

Section ParserFacts.
Context {Obj Element : Type}.
Variable XML_fromstring : string -> result Element.
Variable iter : Element -> list Element.
Variable tag : Element -> string.
Variable findtext : Element -> string -> option string.
Variable ns_tag : string -> string -> string.
Variable _DIDL_CLASS_TO_CLASS : gmap string (@DidlClass Obj Element).
Variable _UPGRADE_FUNCTIONS : list (Obj -> M Obj Obj).

Local Abbreviation build :=
  (build_item findtext ns_tag _DIDL_CLASS_TO_CLASS _UPGRADE_FUNCTIONS).
Local Abbreviation is_ic := (is_item_or_container tag).
Local Abbreviation loop :=
  (for_elt_in tag findtext ns_tag _DIDL_CLASS_TO_CLASS _UPGRADE_FUNCTIONS).
Local Abbreviation parse :=
  (from_didl_string XML_fromstring iter tag findtext ns_tag
     _DIDL_CLASS_TO_CLASS _UPGRADE_FUNCTIONS).

(** The test of line 42 is the suffix test on the tag. *)
Lemma is_item_or_container_spec (elt : Element) :
  is_ic elt = true <->
  (exists p, tag elt = p ++ "item") \/ (exists p, tag elt = p ++ "container").
Proof.
  unfold is_item_or_container.
  by rewrite orb_true_iff, !PyStrFacts.endswith_spec.
Qed.

Lemma is_item_or_container_desc (elt : Element) :
  (exists p, tag elt = p ++ "desc") -> is_ic elt = false.
Proof.
  intros Hd%PyStrFacts.endswith_spec.
  destruct (PyStrFacts.endswith_desc _ Hd) as [Hi Hc].
  unfold is_item_or_container. by rewrite Hi, Hc.
Qed.



Lemma build_item_known (elt : Element) (c : string) (cls : DidlClass) :
  findtext elt (ns_tag "upnp" "class") = Some c ->
  _DIDL_CLASS_TO_CLASS !! strip_subclass c = Some cls ->
  build elt = from_element cls elt ≫= upgrade_loop _UPGRADE_FUNCTIONS.
Proof.
  intros Hc Hreg. unfold build_item, resolve_class. rewrite Hc, Hreg.
  by rewrite bind_mret_l.
Qed.

Lemma for_elt_in_app (pre rest : list Element) (items : list Obj) :
  loop (pre ++ rest) items = loop pre items ≫= loop rest.
Proof.
  revert items. induction pre as [|elt pre IH]; intros items;
    cbn [for_elt_in app].
  - by rewrite bind_mret_l.
  - destruct (is_ic elt); [| done].
    rewrite bind_assoc. by apply bind_ext.
Qed.

(** The loop returns exactly when every element passes the test of line 42
    and is built without error; it then returns the objects built, in the
    order of the elements, behind those it started with. *)
Lemma for_elt_in_returns (elts : list Element) (items out : list Obj) :
  returns (loop elts items) out <->
  exists built,
    out = (items ++ built)%list /\
    Forall2 (fun elt item => is_ic elt = true /\ returns (build elt) item)
            elts built.
Proof.
  revert items. induction elts as [|elt elts IH]; intros items;
    cbn [for_elt_in].
  - rewrite returns_mret. split.
    + intros <-. exists []. by rewrite app_nil_r.
    + intros (built & -> & Hb). apply Forall2_nil_inv_l in Hb as ->.
      by rewrite app_nil_r.
  - destruct (is_ic elt) eqn:Hic.
    + rewrite returns_bind. split.
      * intros (item & Hitem & (built & -> & Hb)%IH).
        exists (item :: built). rewrite <- app_assoc. split; [done |].
        by constructor.
      * intros (built & -> & Hb).
        apply Forall2_cons_inv_l in Hb as (item & built' & [_ Hitem] & Hb & ->).
        exists item. split; [done |]. apply IH. exists built'.
        by rewrite <- app_assoc.
    + split.
      * intros H. exfalso. revert H. by apply (raises_not_returns _ (illegal_child tag elt)).
      * intros (built & _ & Hb).
        apply Forall2_cons_inv_l in Hb as (? & ? & [? ?] & _). congruence.
Qed.

(** The error of the first element that fails is the error of the loop. *)
Lemma for_elt_in_raises_at (pre post : list Element) (elt : Element)
    (items its : list Obj) (e : exn) :
  returns (loop pre items) its ->
  raises (loop [elt] its) e ->
  raises (loop (pre ++ elt :: post) items) e.
Proof.
  intros Hpre Helt. rewrite for_elt_in_app. apply raises_bind. right.
  exists its. split; [done |].
  change (elt :: post) with ([elt] ++ post)%list.
  rewrite for_elt_in_app. apply raises_bind. by left.
Qed.

Lemma for_elt_in_illegal (elt : Element) (its : list Obj) :
  is_ic elt = false -> loop [elt] its = raise (illegal_child tag elt).
Proof. cbn [for_elt_in]. by intros ->. Qed.

Lemma from_didl_string_returns (s : string) (items : list Obj) :
  returns (parse s) items <->
  exists root, XML_fromstring s = Ok root /\ returns (loop (iter root) []) items.
Proof.
  unfold from_didl_string. destruct (XML_fromstring s) as [root|e].
  - rewrite bind_lift_Ok, returns_bind. split.
    + intros (its & Hloop & Hret). exists root. split; [done |].
      apply returns_bind in Hret as ([] & _ & <-%returns_mret). done.
    + intros (? & [= <-] & Hloop). exists items. split; [done |].
      apply returns_bind. exists tt. split; [done | by apply returns_mret].
  - split; [done | by intros (? & [=] & _)].
Qed.

Lemma from_didl_string_raises (s : string) (root : Element) (e : exn) :
  XML_fromstring s = Ok root ->
  raises (loop (iter root) []) e ->
  raises (parse s) e.
Proof.
  intros Hroot Hloop. unfold from_didl_string.
  rewrite Hroot, bind_lift_Ok. apply raises_bind. by left.
Qed.

(** The records of the loop that returns: what each child logged while it
    was built, child after child. *)
Lemma for_elt_in_log (elts : list Element) (items out : list Obj) :
  returns (loop elts items) out ->
  (loop elts items).2 = concat (map (fun elt => (build elt).2) elts).
Proof.
  revert items. induction elts as [|elt elts IH]; intros items;
    cbn [for_elt_in map concat]; [done |].
  destruct (is_ic elt).
  - intros (item & Hitem & Hrest)%returns_bind.
    unfold returns in Hitem. destruct (build elt) as [[a|e] l]; [| done].
    cbn [fst] in Hitem. injection Hitem as ->.
    rewrite bind_Ok. cbn [snd]. by rewrite (IH _ Hrest).
  - intros Hret. exfalso. revert Hret.
    by apply (raises_not_returns _ (illegal_child tag elt)).
Qed.

(** The loop stops at the first child that fails: it raises the error of
    this child, and its records are those of the children before it and of
    this child. *)
Lemma for_elt_in_fails_at (pre post : list Element) (elt : Element)
    (items its : list Obj) (e : exn) :
  returns (loop pre items) its ->
  raises (loop [elt] its) e ->
  loop (pre ++ elt :: post) items
  = (Raise e, ((loop pre items).2 ++ (loop [elt] its).2)%list).
Proof.
  unfold returns, raises. intros Hpre Helt. rewrite for_elt_in_app.
  destruct (loop pre items) as [[x|e'] lp]; cbn [fst] in Hpre; [| done].
  injection Hpre as ->. rewrite bind_Ok.
  change (elt :: post) with ([elt] ++ post)%list. rewrite for_elt_in_app.
  destruct (loop [elt] its) as [[y|e''] le]; cbn [fst] in Helt; [done |].
  injection Helt as ->. by rewrite bind_Raise.
Qed.

Lemma from_didl_string_fails (s : string) (root : Element) (e : exn)
    (l : list (LogRecord Obj)) :
  XML_fromstring s = Ok root ->
  loop (iter root) [] = (Raise e, l) ->
  parse s = (Raise e, l).
Proof.
  intros Hroot Hloop. unfold from_didl_string.
  by rewrite Hroot, bind_lift_Ok, Hloop.
Qed.

(** A child with a tag that fails the test of line 42: the parse is the
    loop over the children before it, then the error; the children behind
    it do not occur. *)
Lemma from_didl_string_illegal (s : string) (root : Element)
    (pre post : list Element) (elt : Element) :
  XML_fromstring s = Ok root ->
  iter root = (pre ++ elt :: post)%list ->
  is_ic elt = false ->
  parse s = (loop pre [] ≫= fun _ => raise (illegal_child tag elt)).
Proof.
  intros Hroot Hch Hic. unfold from_didl_string.
  rewrite Hroot, bind_lift_Ok, Hch, for_elt_in_app, bind_assoc.
  apply bind_ext. intros its. cbn [for_elt_in]. by rewrite Hic.
Qed.


(** What [build_item] logs is what [from_element] and the upgrades log. *)
Lemma build_item_log (elt : Element) :
  (build elt).2
  = match findtext elt (ns_tag "upnp" "class")
          ≫= (fun c => _DIDL_CLASS_TO_CLASS !! strip_subclass c) with
    | Some cls => (from_element cls elt ≫= upgrade_loop _UPGRADE_FUNCTIONS).2
    | None => []
    end.
Proof.
  unfold build_item, resolve_class.
  destruct (findtext elt (ns_tag "upnp" "class")) as [c|]; [| done].
  cbn [mbind option_bind].
  destruct (_DIDL_CLASS_TO_CLASS !! strip_subclass c) as [cls|]; [| done].
  by rewrite bind_mret_l.
Qed.

End ParserFacts.

(** * Facts about the upgrade *)

Section UpgradeFacts.
Context {Obj : Type} `{DidlLike Obj}.
Variable get_class : string -> option (MSArgs -> Obj).
Variable desc_from_uri : string -> string.
Variable urlparse : string -> result UrlLib.ParseResult.

Local Abbreviation upgrade :=
  (attempt_datastructure_upgrade get_class desc_from_uri urlparse).

(** The mapping table has the one entry. *)
Lemma mapping_table_lookup (name : string) :
  DIDL_NAME_TO_QUALIFIED_MS_NAME !! name =
  if decide (name = "DidlMusicTrack") then Some "MediaMetadataTrack" else None.
Proof.
  unfold DIDL_NAME_TO_QUALIFIED_MS_NAME. case_decide as Hn.
  - subst. apply lookup_singleton_eq.
  - by apply lookup_singleton_ne.
Qed.

(** An exception of [urlparse] on a service URI is the exception of the
    upgrade, and nothing is logged before it. *)
Lemma upgrade_urlparse_raises (didl_item : Obj) (r : DidlResource)
    (rs : list DidlResource) (e : exn) :
  resources didl_item = r :: rs ->
  PyStr.startswith (uri r) "x-sonos-http" = true ->
  urlparse (uri r) = Raise e ->
  upgrade didl_item = (Raise e, []).
Proof.
  intros Hres Hpre Hparse. unfold attempt_datastructure_upgrade.
  by rewrite Hres, Hpre, Hparse.
Qed.

(** No class for the item, from the table or from [get_class]: the item
    comes back with one warning. *)
Lemma upgrade_no_class_run (didl_item : Obj) (r : DidlResource)
    (rs : list DidlResource) (parsed : UrlLib.ParseResult) :
  resources didl_item = r :: rs ->
  PyStr.startswith (uri r) "x-sonos-http" = true ->
  urlparse (uri r) = Ok parsed ->
  (DIDL_NAME_TO_QUALIFIED_MS_NAME !! class_name didl_item ≫= get_class)
  = None ->
  upgrade didl_item
  = (Ok didl_item,
     [mkLog WARNING upgrade_fail_msg [ArgStr (class_name didl_item)]]).
Proof.
  intros Hres Hpre Hparse Hcls. unfold attempt_datastructure_upgrade.
  rewrite Hres, Hpre, Hparse, bind_lift_Ok. by rewrite Hcls.
Qed.

(** The identifier of the upgraded item: the constant, then the path of the
    URI up to its last dot. *)
Lemma upgrade_mapped (didl_item : Obj) (r : DidlResource)
    (rs : list DidlResource) (parsed : UrlLib.ParseResult) (key : string)
    (cls : MSArgs -> Obj) :
  resources didl_item = r :: rs ->
  PyStr.startswith (uri r) "x-sonos-http" = true ->
  urlparse (uri r) = Ok parsed ->
  DIDL_NAME_TO_QUALIFIED_MS_NAME !! class_name didl_item = Some key ->
  get_class key = Some cls ->
  returns (upgrade didl_item)
    (cls {| kw_item_id :=
              "11111111" ++ hd "" (PyStr.rsplit1 "." (UrlLib.path parsed));
            kw_desc := desc_from_uri (uri r);
            kw_resources := r :: rs;
            kw_uri := uri r;
            kw_metadata_dict :=
              match title didl_item with
              | Some t => {[ "title" := t ]}
              | None => ∅
              end |}).
Proof.
  intros Hres Hpre Hparse Hkey Hcls.
  unfold attempt_datastructure_upgrade, returns.
  rewrite Hres, Hpre, Hparse, bind_lift_Ok, Hkey.
  cbn [mbind option_bind]. by rewrite Hcls.
Qed.

End UpgradeFacts.

(** * Properties of the upgrade *)

(** C9.  [attempt_datastructure_upgrade] is the identity on an item with no
    resources and on an item whose first resource has a URI that does not
    start with [x-sonos-http]: it returns the item it was given, raises
    nothing, and logs one debug message. *)
Theorem upgrade_identity_without_service_uri {Obj : Type} `{DidlLike Obj}
    (get_class : string -> option (MSArgs -> Obj))
    (desc_from_uri : string -> string)
    (urlparse : string -> result UrlLib.ParseResult) (didl_item : Obj) :
  (resources didl_item = [] \/
   exists r rs, resources didl_item = r :: rs /\
                PyStr.startswith (uri r) "x-sonos-http" = false) ->
  returns (attempt_datastructure_upgrade get_class desc_from_uri urlparse
             didl_item) didl_item /\
  (forall e, ~ raises (attempt_datastructure_upgrade get_class desc_from_uri
                         urlparse didl_item) e) /\
  exists msg,
    attempt_datastructure_upgrade get_class desc_from_uri urlparse didl_item
    = (Ok didl_item, [mkLog DEBUG msg []]).
Proof.
  intros Hcase.
  assert (exists msg,
    attempt_datastructure_upgrade get_class desc_from_uri urlparse didl_item
    = (Ok didl_item, [mkLog DEBUG msg []])) as [msg Hrun].
  { unfold attempt_datastructure_upgrade.
    destruct Hcase as [-> | (r & rs & -> & ->)]; by eexists. }
  split; [by unfold returns; rewrite Hrun |].
  split; [| by exists msg].
  intros e. unfold raises. by rewrite Hrun.
Qed.

Lemma upgrade_identity_without_service_uri_witness :
  returns (Sample.upgrade Sample.no_resources) Sample.no_resources /\
  returns (Sample.upgrade Sample.local_song) Sample.local_song.
Proof.
  split.
  - apply (upgrade_identity_without_service_uri Sample.get_class
             Sample.desc_from_uri UrlLib.urlparse Sample.no_resources).
    left. reflexivity.
  - apply (upgrade_identity_without_service_uri Sample.get_class
             Sample.desc_from_uri UrlLib.urlparse Sample.local_song).
    right. eexists _, _. split; reflexivity.
Defined.

(** C8 (amended).  On an item whose first resource has a URI that starts
    with [x-sonos-http] and whose class name has no entry in
    [DIDL_NAME_TO_QUALIFIED_MS_NAME]: when [urlparse] returns on the URI,
    [attempt_datastructure_upgrade] returns the item it was given, raises
    nothing, and logs exactly one record, a warning; when [urlparse] raises
    on the URI, the call raises that exception, returns nothing and logs
    nothing, because [urlparse] is called before the [try] that handles the
    missing entry. *)
Theorem upgrade_unmapped_class_warns {Obj : Type} `{DidlLike Obj}
    (get_class : string -> option (MSArgs -> Obj))
    (desc_from_uri : string -> string)
    (urlparse : string -> result UrlLib.ParseResult) (didl_item : Obj)
    (r : DidlResource) (rs : list DidlResource) :
  resources didl_item = r :: rs ->
  PyStr.startswith (uri r) "x-sonos-http" = true ->
  DIDL_NAME_TO_QUALIFIED_MS_NAME !! class_name didl_item = None ->
  (forall parsed, urlparse (uri r) = Ok parsed ->
     attempt_datastructure_upgrade get_class desc_from_uri urlparse didl_item
     = (Ok didl_item,
        [mkLog WARNING upgrade_fail_msg [ArgStr (class_name didl_item)]]) /\
     forall e, ~ raises (attempt_datastructure_upgrade get_class desc_from_uri
                           urlparse didl_item) e) /\
  (forall e, urlparse (uri r) = Raise e ->
     attempt_datastructure_upgrade get_class desc_from_uri urlparse didl_item
     = (Raise e, []) /\
     forall o, ~ returns (attempt_datastructure_upgrade get_class desc_from_uri
                            urlparse didl_item) o).
Proof.
  intros Hres Hpre Hkey. split.
  - intros parsed Hparse.
    pose proof (upgrade_no_class_run get_class desc_from_uri urlparse
                  didl_item r rs parsed Hres Hpre Hparse) as Hrun.
    rewrite Hkey in Hrun. specialize (Hrun eq_refl).
    split; [done |]. intros e. unfold raises. by rewrite Hrun.
  - intros e Hparse.
    pose proof (upgrade_urlparse_raises get_class desc_from_uri urlparse
                  didl_item r rs e Hres Hpre Hparse) as Hrun.
    split; [done |]. intros o. unfold returns. by rewrite Hrun.
Qed.

Lemma upgrade_unmapped_class_warns_witness :
  Sample.upgrade Sample.album_a
  = (Ok Sample.album_a, [mkLog WARNING upgrade_fail_msg [ArgStr "DidlAlbum"]]).
Proof.
  refine (proj1 (proj1 (upgrade_unmapped_class_warns Sample.get_class
                          Sample.desc_from_uri UrlLib.urlparse Sample.album_a
                          Sample.song_a_resource [] _ _ _)
                   (UrlLib.mkParseResult "x-sonos-http" "abc123.mp3"
                      "" "" "" "") _)).
  - reflexivity.
  - reflexivity.
  - vm_compute. reflexivity.
  - vm_compute. reflexivity.
Defined.

(** C8, as stated, fails: the album of the example has a service URI with an
    unmatched bracket and a class that the table does not list; [urlparse]
    raises [ValueError] on the URI, and so does the upgrade. *)
Lemma upgrade_unmapped_class_counterexample :
  @resources _ Sample.PyObj_DidlLike Docs.bracket_album
  = [Docs.bracket_resource] /\
  PyStr.startswith (uri Docs.bracket_resource) "x-sonos-http" = true /\
  DIDL_NAME_TO_QUALIFIED_MS_NAME
    !! @class_name _ Sample.PyObj_DidlLike Docs.bracket_album = None /\
  UrlLib.urlparse (uri Docs.bracket_resource)
  = Raise (PyError "ValueError" "Invalid IPv6 URL") /\
  Sample.upgrade Docs.bracket_album
  = (Raise (PyError "ValueError" "Invalid IPv6 URL"), []) /\
  ~ (exists o, returns (Sample.upgrade Docs.bracket_album) o).
Proof.
  split; [reflexivity |]. split; [reflexivity |].
  split; [vm_compute; reflexivity |]. split; [vm_compute; reflexivity |].
  split; [vm_compute; reflexivity |].
  intros [o Hret]. vm_compute in Hret. discriminate Hret.
Qed.

(** C2 (amended).  For an item of class [DidlMusicTrack] titled [Song A]
    whose one resource has the URI [x-sonos-http://abc123.mp3],
    [attempt_datastructure_upgrade] returns an object of the class that
    [get_class] gives for [MediaMetadataTrack], built with the item
    identifier [11111111], the title [Song A] in its metadata and the
    resource list of the item.  The identifier is the constant [11111111]
    followed by the path of the URI without its extension, and the path of
    this URI is empty: [abc123.mp3] is its network location. *)
Theorem upgrade_song_a {Obj : Type} `{DidlLike Obj}
    (get_class : string -> option (MSArgs -> Obj))
    (desc_from_uri : string -> string)
    (cls : MSArgs -> Obj) (didl_item : Obj) (r : DidlResource) :
  class_name didl_item = "DidlMusicTrack" ->
  title didl_item = Some "Song A" ->
  resources didl_item = [r] ->
  uri r = "x-sonos-http://abc123.mp3" ->
  get_class "MediaMetadataTrack" = Some cls ->
  returns (attempt_datastructure_upgrade get_class desc_from_uri
             UrlLib.urlparse didl_item)
    (cls {| kw_item_id := "11111111";
            kw_desc := desc_from_uri "x-sonos-http://abc123.mp3";
            kw_resources := [r];
            kw_uri := "x-sonos-http://abc123.mp3";
            kw_metadata_dict := {[ "title" := "Song A" ]} |}).
Proof.
  intros Hname Htitle Hres Huri Hcls.
  pose proof (upgrade_mapped get_class desc_from_uri UrlLib.urlparse
                didl_item r []
                (UrlLib.mkParseResult "x-sonos-http" "abc123.mp3" "" "" "" "")
                "MediaMetadataTrack" cls Hres) as Hup.
  rewrite Huri, Htitle, Hname in Hup. by apply Hup.
Qed.

Lemma upgrade_song_a_witness :
  returns (Sample.upgrade Sample.song_a)
    (Sample.MusicService "MediaMetadataTrack"
       {| kw_item_id := "11111111";
          kw_desc := "RINCON_AssociatedZPUDN";
          kw_resources := [Sample.song_a_resource];
          kw_uri := "x-sonos-http://abc123.mp3";
          kw_metadata_dict := {[ "title" := "Song A" ]} |}).
Proof.
  apply (upgrade_song_a Sample.get_class Sample.desc_from_uri
           (Sample.MusicService "MediaMetadataTrack") Sample.song_a
           Sample.song_a_resource); reflexivity.
Defined.

(** C2, as stated, fails: the identifier of the object returned for the item
    of the example is [11111111], not [11111111/abc123]. *)
Lemma upgrade_song_a_counterexample :
  UrlLib.urlparse "x-sonos-http://abc123.mp3"
  = Ok (UrlLib.mkParseResult "x-sonos-http" "abc123.mp3" "" "" "" "") /\
  (exists args,
     returns (Sample.upgrade Sample.song_a)
       (Sample.MusicService "MediaMetadataTrack" args) /\
     kw_item_id args = "11111111") /\
  ~ (exists args,
       returns (Sample.upgrade Sample.song_a)
         (Sample.MusicService "MediaMetadataTrack" args) /\
       kw_item_id args = "11111111/abc123").
Proof.
  split; [reflexivity |]. split.
  - eexists. split; [vm_compute; reflexivity | reflexivity].
  - intros (args & Hret & Hid).
    assert (returns (Sample.upgrade Sample.song_a)
              (Sample.MusicService "MediaMetadataTrack"
                 {| kw_item_id := "11111111";
                    kw_desc := "RINCON_AssociatedZPUDN";
                    kw_resources := [Sample.song_a_resource];
                    kw_uri := "x-sonos-http://abc123.mp3";
                    kw_metadata_dict := {[ "title" := "Song A" ]} |}))
      as Hret' by (vm_compute; reflexivity).
    pose proof (returns_inj _ _ _ Hret Hret') as Heq.
    injection Heq as ->. discriminate Hid.
Qed.

(** The identifier on URIs that have a path: the extension is cut and the
    constant put in front. *)
Example item_id_of_paths :
  UrlLib.urlparse "x-sonos-http:track%3a12345.mp3?sid=2&flags=32&sn=4"
  = Ok (UrlLib.mkParseResult "x-sonos-http" "" "track%3a12345.mp3" ""
          "sid=2&flags=32&sn=4" "") /\
  "11111111" ++ hd "" (PyStr.rsplit1 "." "track%3a12345.mp3")
  = "11111111track%3a12345" /\
  UrlLib.urlparse "x-sonos-http:/abc123.mp3"
  = Ok (UrlLib.mkParseResult "x-sonos-http" "" "/abc123.mp3" "" "" "") /\
  "11111111" ++ hd "" (PyStr.rsplit1 "." "/abc123.mp3") = "11111111/abc123".
Proof. repeat split. Qed.

(** * Properties of the parser *)

(** C3.  Resolution of a class identifier that holds the marker [.#] cuts
    the identifier at the marker and looks up what is left: [p.#t], with no
    marker in [p], resolves as [p] does, and an identifier without the
    marker is looked up as it is.  Every identifier that holds the marker is
    such a [p.#t]. *)
Theorem resolve_class_strips_subclass {Obj Element : Type}
    (_DIDL_CLASS_TO_CLASS : gmap string (@DidlClass Obj Element))
    (p t : string) :
  PyStr.contains p ".#" = false ->
  strip_subclass (p ++ ".#" ++ t) = p /\
  resolve_class _DIDL_CLASS_TO_CLASS (p ++ ".#" ++ t)
  = resolve_class _DIDL_CLASS_TO_CLASS p /\
  resolve_class _DIDL_CLASS_TO_CLASS p = exact_lookup _DIDL_CLASS_TO_CLASS p /\
  (forall s, PyStr.contains s ".#" = true ->
     exists p' t', s = p' ++ ".#" ++ t' /\ PyStr.contains p' ".#" = false).
Proof.
  intros Hp. split; [by apply strip_subclass_marker |].
  unfold resolve_class, exact_lookup.
  rewrite strip_subclass_marker, strip_subclass_plain by done.
  repeat split. apply PyStrFacts.contains_marker_split.
Qed.

Lemma resolve_class_strips_subclass_witness :
  resolve_class Sample._DIDL_CLASS_TO_CLASS
    "object.item.audioItem.musicTrack.#vendorX"
  = resolve_class Sample._DIDL_CLASS_TO_CLASS
      "object.item.audioItem.musicTrack".
Proof.
  refine (proj1 (proj2 (resolve_class_strips_subclass
                          Sample._DIDL_CLASS_TO_CLASS
                          "object.item.audioItem.musicTrack" "vendorX" _))).
  reflexivity.
Defined.

(** The tags of C10: a qualified tag that ends with [item] passes the test,
    and so does [notanitem]; [desc] and [foo] do not. *)
Example tags_by_suffix :
  PyStr.endswith "{urn:schemas-upnp-org:metadata-1-0/DIDL-Lite/}item" "item"
  = true /\
  is_item_or_container Sample.tag Sample.notanitem_elt = true /\
  is_item_or_container Sample.tag Sample.desc_elt = false /\
  is_item_or_container Sample.tag Sample.foo_elt = false.
Proof. repeat split. Qed.

Section ParserProperties.
Context {Obj Element : Type}.
Variable XML_fromstring : string -> result Element.
Variable iter : Element -> list Element.
Variable tag : Element -> string.
Variable findtext : Element -> string -> option string.
Variable ns_tag : string -> string -> string.
Variable _DIDL_CLASS_TO_CLASS : gmap string (@DidlClass Obj Element).
Variable _UPGRADE_FUNCTIONS : list (Obj -> M Obj Obj).

Local Abbreviation build :=
  (build_item findtext ns_tag _DIDL_CLASS_TO_CLASS _UPGRADE_FUNCTIONS).
Local Abbreviation is_ic := (is_item_or_container tag).
Local Abbreviation loop :=
  (for_elt_in tag findtext ns_tag _DIDL_CLASS_TO_CLASS _UPGRADE_FUNCTIONS).
Local Abbreviation parse :=
  (from_didl_string XML_fromstring iter tag findtext ns_tag
     _DIDL_CLASS_TO_CLASS _UPGRADE_FUNCTIONS).

(** A child that fails: the parse raises and no list is returned, and the
    error is the child's when the children before it are processed without
    error. *)
Lemma child_fails (s : string) (root : Element) (pre post : list Element)
    (elt : Element) (e : exn) :
  XML_fromstring s = Ok root ->
  iter root = (pre ++ elt :: post)%list ->
  (forall its, raises (loop [elt] its) e) ->
  (exists e', raises (parse s) e') /\
  (forall items, ~ returns (parse s) items) /\
  (forall its, returns (loop pre []) its -> raises (parse s) e).
Proof.
  intros Hroot Hch Helt.
  assert (forall items, ~ returns (parse s) items) as Hno.
  { intros items (root' & Hroot' & Hret)%from_didl_string_returns.
    rewrite Hroot in Hroot'. injection Hroot' as <-.
    rewrite Hch, for_elt_in_app in Hret.
    apply returns_bind in Hret as (its & _ & Hret).
    change (elt :: post) with ([elt] ++ post)%list in Hret.
    rewrite for_elt_in_app in Hret.
    apply returns_bind in Hret as (its' & Hret & _).
    by eapply raises_not_returns. }
  split; [| split; [done |]].
  - destruct (returns_or_raises (parse s)) as [[items Hret] | He]; [| done].
    by apply Hno in Hret.
  - intros its Hpre. eapply from_didl_string_raises; [done |].
    rewrite Hch. by eapply for_elt_in_raises_at.
Qed.

(** C1 (amended).  A child of the root whose tag is [desc], or ends with
    [desc], is an illegal child: a document that has one never parses to a
    list, and when the children before it are processed without error the
    parse raises [DIDLMetadataError] with the message
    [Illegal child of DIDL element: <tag>].  The children after it are not
    processed: the parse is the loop over the children before it followed
    by the error, its records are those of the children before it, and a
    document with the same children up to this one and any others behind it
    has the same outcome and the same records. *)
Theorem desc_child_is_rejected (s : string) (root : Element)
    (pre post : list Element) (elt : Element) :
  XML_fromstring s = Ok root ->
  iter root = (pre ++ elt :: post)%list ->
  (exists p, tag elt = p ++ "desc") ->
  (exists e, raises (parse s) e) /\
  (forall items, ~ returns (parse s) items) /\
  (forall its, returns (loop pre []) its ->
     raises (parse s)
       (DIDLMetadataError
          ("Illegal child of DIDL element: <" ++ tag elt ++ ">"))) /\
  parse s
  = (loop pre [] ≫= fun _ =>
       raise (DIDLMetadataError
                ("Illegal child of DIDL element: <" ++ tag elt ++ ">"))) /\
  (parse s).2 = (loop pre []).2 /\
  (forall (s' : string) (root' : Element) (post' : list Element),
     XML_fromstring s' = Ok root' ->
     iter root' = (pre ++ elt :: post')%list ->
     parse s' = parse s).
Proof.
  intros Hroot Hch Hdesc%is_item_or_container_desc.
  destruct (child_fails s root pre post elt (illegal_child tag elt) Hroot Hch)
    as (He & Hno & Hraise).
  { intros its. unfold raises. by rewrite for_elt_in_illegal. }
  pose proof (from_didl_string_illegal XML_fromstring iter tag findtext ns_tag
                _DIDL_CLASS_TO_CLASS _UPGRADE_FUNCTIONS s root pre post elt
                Hroot Hch Hdesc) as Hrun.
  split; [done |]. split; [done |]. split; [done |]. split; [done |]. split.
  - rewrite Hrun. destruct (loop pre []) as [[its|e] l]; [| done].
    rewrite bind_Ok. cbn [snd raise]. by rewrite app_nil_r.
  - intros s' root' post' Hroot' Hch'. rewrite Hrun.
    by apply (from_didl_string_illegal XML_fromstring iter tag findtext
                ns_tag _DIDL_CLASS_TO_CLASS _UPGRADE_FUNCTIONS s' root' pre
                post' elt).
Qed.




(** The parse returns whenever the text is well formed and every child of
    the root is taken as an item or container and built without error. *)
Lemma parse_returns_when_children_build (s : string) (root : Element)
    (items : list Obj) :
  XML_fromstring s = Ok root ->
  Forall2 (fun elt item => is_ic elt = true /\ returns (build elt) item)
          (iter root) items ->
  returns (parse s) items.
Proof.
  intros Hroot Hb. apply from_didl_string_returns. exists root.
  split; [done |]. apply for_elt_in_returns. by exists items.
Qed.

(** C6.  When the parse returns, every child of the root was taken as an
    item or container, and the list returned holds, for each of these
    children and in their order, the object built for it: with N such
    children the list has N entries. *)
Theorem parse_returns_one_object_per_child (s : string) (items : list Obj) :
  returns (parse s) items ->
  exists root,
    XML_fromstring s = Ok root /\
    List.filter is_ic (iter root) = iter root /\
    length items = length (List.filter is_ic (iter root)) /\
    Forall2 (fun elt item => returns (build elt) item)
            (List.filter is_ic (iter root)) items.
Proof.
  intros (root & Hroot & Hret)%from_didl_string_returns.
  apply for_elt_in_returns in Hret as (built & -> & Hb). cbn [app].
  exists root. split; [done |].
  assert (List.filter is_ic (iter root) = iter root) as ->.
  { induction Hb as [|elt item elts built [Hic _] _ IH]; [done |].
    cbn [List.filter]. by rewrite Hic, IH. }
  split; [done |]. split; [symmetry; by eapply Forall2_length |].
  eapply Forall2_impl; [done |]. by intros elt item [_ ?].
Qed.



End ParserProperties.

(** * The properties on the sample documents *)

Lemma desc_child_is_rejected_witness :
  raises
    (Sample.parse
       (Sample.to_xml
          (Sample.didl [Sample.local_track; Sample.desc_elt; Sample.album])))
    (DIDLMetadataError "Illegal child of DIDL element: <desc>").
Proof.
  refine (proj1 (proj2 (proj2 (desc_child_is_rejected Sample.fromstring
                   Sample.iter
                   Sample.tag Sample.findtext Sample.ns_tag
                   Sample._DIDL_CLASS_TO_CLASS Sample._UPGRADE_FUNCTIONS
                   _ (Sample.didl [Sample.local_track; Sample.desc_elt;
                                   Sample.album])
                   [Sample.local_track] [Sample.album] Sample.desc_elt
                   _ _ _))) [Sample.local_song] _).
  - vm_compute. reflexivity.
  - reflexivity.
  - exists "". reflexivity.
  - vm_compute. reflexivity.
Defined.

(** C1, as stated, fails: the document with the children [item], [desc],
    [container] does not parse to the two objects of its item and container,
    as the same document without the [desc] child does; the parse raises. *)
Lemma desc_child_counterexample :
  returns
    (Sample.parse (Sample.to_xml (Sample.didl [Sample.local_track; Sample.album])))
    [Sample.local_song; Sample.Didl "DidlAlbum" "A:ALBUM/x" (Some "X") []] /\
  Sample.tag Sample.desc_elt = "desc" /\
  raises
    (Sample.parse
       (Sample.to_xml
          (Sample.didl [Sample.local_track; Sample.desc_elt; Sample.album])))
    (DIDLMetadataError "Illegal child of DIDL element: <desc>") /\
  ~ (exists items,
       returns
         (Sample.parse
            (Sample.to_xml
               (Sample.didl [Sample.local_track; Sample.desc_elt;
                             Sample.album])))
         items).
Proof.
  split; [vm_compute; reflexivity |]. split; [reflexivity |].
  split; [vm_compute; reflexivity |].
  intros [items Hret]. vm_compute in Hret. discriminate Hret.
Qed.







Lemma parse_returns_one_object_per_child_witness :
  exists root,
    Sample.fromstring
      (Sample.to_xml
         (Sample.didl [Sample.local_track; Sample.vendor_track; Sample.album]))
    = Ok root /\
    List.filter (is_item_or_container Sample.tag) (Sample.iter root)
    = Sample.iter root /\
    length [Sample.local_song;
            Sample.Didl "DidlMusicTrack" "S://a/two.mp3" (Some "Two")
              [mkResource "x-file-cifs://a/two.mp3" "http-get:*:audio/mpeg:*"];
            Sample.Didl "DidlAlbum" "A:ALBUM/x" (Some "X") []]
    = length (List.filter (is_item_or_container Sample.tag) (Sample.iter root))
    /\
    Forall2
      (fun elt item =>
         returns (build_item Sample.findtext Sample.ns_tag
                    Sample._DIDL_CLASS_TO_CLASS Sample._UPGRADE_FUNCTIONS elt)
                 item)
      (List.filter (is_item_or_container Sample.tag) (Sample.iter root))
      [Sample.local_song;
       Sample.Didl "DidlMusicTrack" "S://a/two.mp3" (Some "Two")
         [mkResource "x-file-cifs://a/two.mp3" "http-get:*:audio/mpeg:*"];
       Sample.Didl "DidlAlbum" "A:ALBUM/x" (Some "X") []].
Proof.
  apply (parse_returns_one_object_per_child Sample.fromstring Sample.iter
           Sample.tag Sample.findtext Sample.ns_tag
           Sample._DIDL_CLASS_TO_CLASS Sample._UPGRADE_FUNCTIONS).
  vm_compute. reflexivity.
Defined.


(** * Further properties of the parser *)

(** X1.  Cutting a class identifier at the marker gives a beginning of the
    identifier that holds no marker, and cutting again changes nothing. *)
Theorem strip_subclass_result (s : string) :
  (exists t, s = strip_subclass s ++ t) /\
  PyStr.contains (strip_subclass s) ".#" = false /\
  strip_subclass (strip_subclass s) = strip_subclass s.
Proof.
  destruct (PyStr.contains s ".#") eqn:Hs.
  - apply PyStrFacts.contains_marker_split in Hs as (p & t & -> & Hp).
    rewrite (strip_subclass_marker p t Hp). split; [by eexists |].
    split; [done | by apply strip_subclass_plain].
  - rewrite (strip_subclass_plain s Hs). split; [| by rewrite strip_subclass_plain].
    exists "". by rewrite PyStrFacts.str_app_nil_r.
Qed.

Section ParserEdges.
Context {Obj Element : Type}.
Variable XML_fromstring : string -> result Element.
Variable iter : Element -> list Element.
Variable tag : Element -> string.
Variable findtext : Element -> string -> option string.
Variable ns_tag : string -> string -> string.
Variable _DIDL_CLASS_TO_CLASS : gmap string (@DidlClass Obj Element).
Variable _UPGRADE_FUNCTIONS : list (Obj -> M Obj Obj).

Local Abbreviation build :=
  (build_item findtext ns_tag _DIDL_CLASS_TO_CLASS _UPGRADE_FUNCTIONS).
Local Abbreviation is_ic := (is_item_or_container tag).
Local Abbreviation loop :=
  (for_elt_in tag findtext ns_tag _DIDL_CLASS_TO_CLASS _UPGRADE_FUNCTIONS).
Local Abbreviation parse :=
  (from_didl_string XML_fromstring iter tag findtext ns_tag
     _DIDL_CLASS_TO_CLASS _UPGRADE_FUNCTIONS).

(** The first child that cannot be built decides the error of the parse. *)
Lemma first_build_error (s : string) (root : Element)
    (pre post : list Element) (elt : Element) (its : list Obj) (e : exn) :
  XML_fromstring s = Ok root ->
  iter root = (pre ++ elt :: post)%list ->
  returns (loop pre []) its ->
  is_ic elt = true ->
  raises (build elt) e ->
  raises (parse s) e /\ forall items, ~ returns (parse s) items.
Proof.
  intros Hroot Hch Hpre Hic He.
  assert (raises (parse s) e) as Hr.
  { eapply from_didl_string_raises; [done |]. rewrite Hch.
    eapply for_elt_in_raises_at; [done |].
    cbn [for_elt_in]. rewrite Hic. apply raises_bind. by left. }
  split; [done |]. intros items. by eapply raises_not_returns.
Qed.

(** X2.  An item or container that has no [upnp:class] child makes the
    parse raise [TypeError], not [DIDLMetadataError], when the children
    before it are processed without error; no list is returned. *)
Theorem missing_class_raises_type_error (s : string) (root : Element)
    (pre post : list Element) (elt : Element) (its : list Obj) :
  XML_fromstring s = Ok root ->
  iter root = (pre ++ elt :: post)%list ->
  returns (loop pre []) its ->
  (exists p, tag elt = p ++ "item") \/ (exists p, tag elt = p ++ "container") ->
  findtext elt (ns_tag "upnp" "class") = None ->
  raises (parse s) (TypeError "argument of type 'NoneType' is not iterable") /\
  forall items, ~ returns (parse s) items.
Proof.
  intros Hroot Hch Hpre Hic%is_item_or_container_spec Hc.
  eapply first_build_error; try done.
  unfold raises, build_item. by rewrite Hc.
Qed.

(** X3.  An exception of a callee is the exception of the parse: when the
    class of a child raises in [from_element], or an upgrade raises on the
    object built, and the children before it are processed without error,
    the parse raises that exception and returns no list. *)
Theorem callee_error_aborts_parse (s : string) (root : Element)
    (pre post : list Element) (elt : Element) (its : list Obj)
    (c : string) (cls : DidlClass) (e : exn) :
  XML_fromstring s = Ok root ->
  iter root = (pre ++ elt :: post)%list ->
  returns (loop pre []) its ->
  is_ic elt = true ->
  findtext elt (ns_tag "upnp" "class") = Some c ->
  _DIDL_CLASS_TO_CLASS !! strip_subclass c = Some cls ->
  (raises (from_element cls elt) e \/
   exists item0, returns (from_element cls elt) item0 /\
                 raises (upgrade_loop _UPGRADE_FUNCTIONS item0) e) ->
  raises (parse s) e /\ forall items, ~ returns (parse s) items.
Proof.
  intros Hroot Hch Hpre Hic Hc Hreg He.
  eapply first_build_error; try done.
  rewrite (build_item_known _ _ _ _ _ c cls) by done.
  apply raises_bind. destruct He as [He | (item0 & H0 & He)]; [by left |].
  right. by exists item0.
Qed.

(** X4.  What [from_didl_string] logs.  After an XML error: nothing.  After
    a success: what each child logged while it was built, child after
    child, then one record of level ERROR that carries the list returned
    and the text.  After a failure in a child: what the children before it
    logged and what the failing child logged up to its error, and no final
    record.  What a child logs is what [from_element] of its class and the
    upgrades log: the parser has no record of its own for a child. *)
Theorem parse_log (s : string) :
  (forall e, XML_fromstring s = Raise e -> parse s = (Raise e, [])) /\
  (forall root items,
     XML_fromstring s = Ok root ->
     returns (parse s) items ->
     (parse s).2
     = (concat (map (fun elt => (build elt).2) (iter root)) ++
        [mkLog ERROR created_msg [ArgList items; ArgStr s]])%list) /\
  (forall root pre elt post its e,
     XML_fromstring s = Ok root ->
     iter root = (pre ++ elt :: post)%list ->
     returns (loop pre []) its ->
     raises (loop [elt] its) e ->
     parse s
     = (Raise e,
        (concat (map (fun elt => (build elt).2) pre) ++
         (if is_ic elt then (build elt).2 else []))%list)) /\
  (forall elt,
     (build elt).2
     = match findtext elt (ns_tag "upnp" "class")
             ≫= (fun c => _DIDL_CLASS_TO_CLASS !! strip_subclass c) with
       | Some cls =>
           (from_element cls elt ≫= upgrade_loop _UPGRADE_FUNCTIONS).2
       | None => []
       end).
Proof.
  split; [| split; [| split]].
  - intros e He. unfold from_didl_string. by rewrite He.
  - intros root items Hroot Hret.
    apply from_didl_string_returns in Hret as (root' & Hroot' & Hret).
    rewrite Hroot in Hroot'. injection Hroot' as <-.
    pose proof (for_elt_in_log tag findtext ns_tag _DIDL_CLASS_TO_CLASS
                  _UPGRADE_FUNCTIONS _ _ _ Hret) as Hlog.
    unfold from_didl_string. rewrite Hroot, bind_lift_Ok.
    unfold returns in Hret.
    destruct (loop (iter root) []) as [[x|e] l]; cbn [fst] in Hret; [| done].
    injection Hret as ->. cbn [snd] in Hlog. subst l.
    by rewrite bind_Ok.
  - intros root pre elt post its e Hroot Hch Hpre Helt.
    eapply from_didl_string_fails; [done |].
    rewrite Hch, (for_elt_in_fails_at tag findtext ns_tag _DIDL_CLASS_TO_CLASS
                    _UPGRADE_FUNCTIONS pre post elt [] its e Hpre Helt).
    rewrite (for_elt_in_log tag findtext ns_tag _DIDL_CLASS_TO_CLASS
               _UPGRADE_FUNCTIONS _ _ _ Hpre).
    do 2 f_equal. unfold raises in Helt. cbn [for_elt_in] in *.
    destruct (is_ic elt); [| done].
    destruct (build elt) as [[item|e'] l]; [done |].
    by rewrite bind_Raise.
  - apply build_item_log.
Qed.

(** X5.  A document whose root has no child parses to the empty list, and
    the one record logged is the ERROR record of the end. *)
Theorem parse_empty_document (s : string) (root : Element) :
  XML_fromstring s = Ok root ->
  iter root = [] ->
  parse s = (Ok [], [mkLog ERROR created_msg [ArgList []; ArgStr s]]).
Proof.
  intros Hroot Hch. unfold from_didl_string.
  by rewrite Hroot, bind_lift_Ok, Hch.
Qed.

(** X6.  Parsing follows the children: when the children of a root are
    those of a first root followed by those of a second, and the two
    documents parse, the document parses to the first list followed by the
    second. *)
Theorem parse_concat (s1 s2 s : string) (r1 r2 r : Element)
    (a b : list Obj) :
  XML_fromstring s1 = Ok r1 ->
  XML_fromstring s2 = Ok r2 ->
  XML_fromstring s = Ok r ->
  iter r = (iter r1 ++ iter r2)%list ->
  returns (parse s1) a ->
  returns (parse s2) b ->
  returns (parse s) (a ++ b)%list.
Proof.
  intros H1 H2 Hr Hch Ha Hb.
  apply from_didl_string_returns in Ha as (r1' & H1' & Ha).
  apply from_didl_string_returns in Hb as (r2' & H2' & Hb).
  rewrite H1 in H1'. injection H1' as <-.
  rewrite H2 in H2'. injection H2' as <-.
  apply for_elt_in_returns in Ha as (a' & -> & Ha).
  apply for_elt_in_returns in Hb as (b' & -> & Hb).
  apply from_didl_string_returns. exists r. split; [done |].
  rewrite Hch. apply for_elt_in_returns. exists (a' ++ b')%list.
  split; [done |]. by apply Forall2_app.
Qed.

End ParserEdges.

(** * Further properties of the upgrade *)

Section UpgradeEdges.
Context {Obj : Type} `{DidlLike Obj}.
Variable get_class : string -> option (MSArgs -> Obj).
Variable desc_from_uri : string -> string.
Variable urlparse : string -> result UrlLib.ParseResult.

Local Abbreviation upgrade :=
  (attempt_datastructure_upgrade get_class desc_from_uri urlparse).

(** An item with no resources, or with a first URI that is not a service
    URI, comes back as it is. *)
Lemma upgrade_local_returns (didl_item : Obj) :
  (resources didl_item = [] \/
   exists r rs, resources didl_item = r :: rs /\
                PyStr.startswith (uri r) "x-sonos-http" = false) ->
  returns (upgrade didl_item) didl_item.
Proof.
  unfold attempt_datastructure_upgrade, returns.
  by intros [-> | (r & rs & -> & ->)].
Qed.

(** X7.  The object built by the upgrade keeps every resource of the item,
    not only the first; its URI is that of the first resource; its metadata
    holds the title of the item when the item has one and no other key; its
    identifier starts with [11111111].  The object is built whenever
    [urlparse] returns on the URI; when it raises, its exception is the
    exception of the upgrade. *)
Theorem upgraded_object_fields (didl_item : Obj) (r : DidlResource)
    (rs : list DidlResource) (key : string) (cls : MSArgs -> Obj) :
  resources didl_item = r :: rs ->
  PyStr.startswith (uri r) "x-sonos-http" = true ->
  DIDL_NAME_TO_QUALIFIED_MS_NAME !! class_name didl_item = Some key ->
  get_class key = Some cls ->
  (forall parsed, urlparse (uri r) = Ok parsed ->
     exists args,
       returns (upgrade didl_item) (cls args) /\
       kw_resources args = r :: rs /\
       kw_uri args = uri r /\
       kw_desc args = desc_from_uri (uri r) /\
       (forall k, kw_metadata_dict args !! k
                  = if decide (k = "title") then title didl_item else None) /\
       exists rest, kw_item_id args = "11111111" ++ rest) /\
  (forall e, urlparse (uri r) = Raise e -> raises (upgrade didl_item) e).
Proof.
  intros Hres Hpre Hkey Hcls. split.
  2:{ intros e Hparse. unfold raises.
      by rewrite (upgrade_urlparse_raises get_class desc_from_uri urlparse
                    didl_item r rs e). }
  intros parsed Hparse. eexists. split.
  { by eapply upgrade_mapped. }
  cbn [kw_resources kw_uri kw_desc kw_metadata_dict kw_item_id].
  repeat split; [| by eexists].
  intros k. destruct (title didl_item) as [t|]; case_decide as Hk.
  - subst. apply lookup_singleton_eq.
  - by apply lookup_singleton_ne.
  - apply lookup_empty.
  - apply lookup_empty.
Qed.

(** X8.  The identifier is cut at the last dot of the whole path that
    [urlparse] gives for the URI: a path [p.ext] with no dot in [ext] gives
    [11111111p], and a path with no dot is kept whole.  When [urlparse]
    raises there is no identifier: its exception is the exception of the
    upgrade. *)
Theorem upgraded_item_id_extension (didl_item : Obj) (r : DidlResource)
    (rs : list DidlResource) (key : string) (cls : MSArgs -> Obj) :
  resources didl_item = r :: rs ->
  PyStr.startswith (uri r) "x-sonos-http" = true ->
  DIDL_NAME_TO_QUALIFIED_MS_NAME !! class_name didl_item = Some key ->
  get_class key = Some cls ->
  (forall parsed, urlparse (uri r) = Ok parsed ->
     exists args,
       returns (upgrade didl_item) (cls args) /\
       (forall p ext,
          UrlLib.path parsed = p ++ "." ++ ext ->
          PyStr.contains ext "." = false ->
          kw_item_id args = "11111111" ++ p) /\
       (PyStr.contains (UrlLib.path parsed) "." = false ->
        kw_item_id args = "11111111" ++ UrlLib.path parsed)) /\
  (forall e, urlparse (uri r) = Raise e -> raises (upgrade didl_item) e).
Proof.
  intros Hres Hpre Hkey Hcls. split.
  2:{ intros e Hparse. unfold raises.
      by rewrite (upgrade_urlparse_raises get_class desc_from_uri urlparse
                    didl_item r rs e). }
  intros parsed Hparse. eexists. split.
  { by eapply upgrade_mapped. }
  cbn [kw_item_id]. split.
  - intros p ext Hp Hext. rewrite Hp.
    change (p ++ "." ++ ext) with (p ++ String "." ext).
    by rewrite (PyStrFacts.rsplit1_extension "." p ext Hext).
  - intros Hno. apply PyStrFacts.rsplit_last_none in Hno.
    unfold PyStr.rsplit1. by rewrite Hno.
Qed.

(** X9.  A [KeyError] of [get_class] is handled like a missing entry of the
    table: the item comes back as it is and one warning is logged.
    [get_class] is reached when [urlparse] has returned on the URI; when
    [urlparse] raises, the upgrade raises its exception and logs nothing. *)
Theorem get_class_key_error_warns (didl_item : Obj) (r : DidlResource)
    (rs : list DidlResource) (key : string) :
  resources didl_item = r :: rs ->
  PyStr.startswith (uri r) "x-sonos-http" = true ->
  DIDL_NAME_TO_QUALIFIED_MS_NAME !! class_name didl_item = Some key ->
  get_class key = None ->
  (forall parsed, urlparse (uri r) = Ok parsed ->
     upgrade didl_item
     = (Ok didl_item,
        [mkLog WARNING upgrade_fail_msg [ArgStr (class_name didl_item)]])) /\
  (forall e, urlparse (uri r) = Raise e -> upgrade didl_item = (Raise e, [])).
Proof.
  intros Hres Hpre Hkey Hcls. split.
  - intros parsed Hparse.
    apply (upgrade_no_class_run get_class desc_from_uri urlparse didl_item
             r rs parsed Hres Hpre Hparse).
    rewrite Hkey. cbn [mbind option_bind]. done.
  - intros e Hparse. by eapply upgrade_urlparse_raises.
Qed.

(** X10.  A call of the upgrade logs at most one record.  Either it
    returns and has logged exactly one record, a warning exactly when the
    first URI is a service URI and no class is found for the item, and a
    debug record otherwise; or the first URI is a service URI on which
    [urlparse] raises, and then the call raises that exception and has
    logged nothing. *)
Theorem upgrade_logs_one_record (didl_item : Obj) :
  (exists o rec,
     upgrade didl_item = (Ok o, [rec]) /\
     (log_level rec = WARNING \/ log_level rec = DEBUG) /\
     (log_level rec = WARNING <->
      exists r rs,
        resources didl_item = r :: rs /\
        PyStr.startswith (uri r) "x-sonos-http" = true /\
        (DIDL_NAME_TO_QUALIFIED_MS_NAME !! class_name didl_item ≫= get_class)
        = None)) \/
  (exists r rs e,
     resources didl_item = r :: rs /\
     PyStr.startswith (uri r) "x-sonos-http" = true /\
     urlparse (uri r) = Raise e /\
     upgrade didl_item = (Raise e, [])).
Proof.
  unfold attempt_datastructure_upgrade.
  destruct (resources didl_item) as [|r rs] eqn:Hres.
  { left. eexists _, _. split; [done |]. split; [by right |].
    split; [done | by intros (? & ? & [=] & _)]. }
  destruct (PyStr.startswith (uri r) "x-sonos-http") eqn:Hpre.
  2:{ left. eexists _, _. split; [done |]. split; [by right |].
      split; [done |]. intros (? & ? & [= <- <-] & ? & _). congruence. }
  destruct (urlparse (uri r)) as [parsed|e] eqn:Hparse.
  2:{ right. by exists r, rs, e. }
  left. rewrite bind_lift_Ok.
  destruct (DIDL_NAME_TO_QUALIFIED_MS_NAME !! class_name didl_item
            ≫= get_class) as [cls|] eqn:Hcls.
  - eexists _, _. split; [done |]. split; [by right |].
    split; [done | by intros (? & ? & _ & _ & [=])].
  - eexists _, _. split; [done |]. split; [by left |].
    split; [| done]. intros _. by exists r, rs.
Qed.

(** X11.  Only items of the class [DidlMusicTrack] are ever upgraded: for
    an item of any other class the upgrade never returns another object
    than the item; it raises exactly when the first URI is a service URI on
    which [urlparse] raises, with the exception of [urlparse]; and it
    returns the item whenever [urlparse] does not raise on such a URI. *)
Theorem only_music_tracks_upgraded (didl_item : Obj) :
  class_name didl_item <> "DidlMusicTrack" ->
  (forall o, returns (upgrade didl_item) o -> o = didl_item) /\
  (forall e,
     raises (upgrade didl_item) e <->
     exists r rs,
       resources didl_item = r :: rs /\
       PyStr.startswith (uri r) "x-sonos-http" = true /\
       urlparse (uri r) = Raise e) /\
  ((forall r rs e,
      resources didl_item = r :: rs ->
      PyStr.startswith (uri r) "x-sonos-http" = true ->
      urlparse (uri r) <> Raise e) ->
   returns (upgrade didl_item) didl_item).
Proof.
  intros Hname.
  assert (DIDL_NAME_TO_QUALIFIED_MS_NAME !! class_name didl_item = None)
    as Hkey.
  { rewrite mapping_table_lookup. by case_decide. }
  unfold attempt_datastructure_upgrade, returns, raises.
  destruct (resources didl_item) as [|r rs] eqn:Hres.
  { split; [by intros o [= <-] |]. split; [| done].
    intros e. split; [done | by intros (? & ? & [=] & _)]. }
  destruct (PyStr.startswith (uri r) "x-sonos-http") eqn:Hpre.
  2:{ split; [by intros o [= <-] |]. split; [| done].
      intros e. split; [done |].
      intros (? & ? & [= <- <-] & ? & _). congruence. }
  destruct (urlparse (uri r)) as [parsed|e0] eqn:Hparse.
  - rewrite bind_lift_Ok, Hkey. cbn [mbind option_bind].
    split; [by intros o [= <-] |]. split; [| done].
    intros e. split; [done |].
    intros (? & ? & [= <- <-] & _ & ?). congruence.
  - unfold lift. rewrite bind_Raise. cbn [fst].
    split; [done |]. split.
    + intros e. split.
      * intros [= <-]. by exists r, rs.
      * intros (? & ? & [= <- <-] & _ & ?). congruence.
    + intros Hno. by destruct (Hno r rs e0).
Qed.

End UpgradeEdges.

(** * The parser with the upgrade registered *)

Section ParserWithUpgrade.
Context {Obj Element : Type} `{DidlLike Obj}.
Variable XML_fromstring : string -> result Element.
Variable iter : Element -> list Element.
Variable tag : Element -> string.
Variable findtext : Element -> string -> option string.
Variable ns_tag : string -> string -> string.
Variable _DIDL_CLASS_TO_CLASS : gmap string (@DidlClass Obj Element).
Variable get_class : string -> option (MSArgs -> Obj).
Variable desc_from_uri : string -> string.
Variable urlparse : string -> result UrlLib.ParseResult.

Local Abbreviation upgrade :=
  (attempt_datastructure_upgrade get_class desc_from_uri urlparse).
Local Abbreviation parse :=
  (from_didl_string XML_fromstring iter tag findtext ns_tag
     _DIDL_CLASS_TO_CLASS (registered [] upgrade)).

(** X12.  With [attempt_datastructure_upgrade] as the one registered
    upgrade, a document of local items parses to exactly the objects that
    the classes of the registry build: when every child is an item or
    container of a registered class whose object has no resource or a first
    URI that is not a service URI, the parse returns these objects, in
    order. *)
Theorem local_document_parses_unchanged (s : string) (root : Element)
    (items : list Obj) :
  XML_fromstring s = Ok root ->
  Forall2
    (fun elt item =>
       is_item_or_container tag elt = true /\
       exists c cls,
         findtext elt (ns_tag "upnp" "class") = Some c /\
         _DIDL_CLASS_TO_CLASS !! strip_subclass c = Some cls /\
         returns (from_element cls elt) item /\
         (resources item = [] \/
          exists r rs, resources item = r :: rs /\
                       PyStr.startswith (uri r) "x-sonos-http" = false))
    (iter root) items ->
  returns (parse s) items.
Proof.
  intros Hroot Hall. eapply parse_returns_when_children_build; [done |].
  eapply Forall2_impl; [done |].
  intros elt item (Hic & c & cls & Hc & Hreg & Hbuilt & Hlocal).
  split; [done |].
  rewrite (build_item_known _ _ _ _ _ c cls) by done.
  apply returns_bind. exists item. split; [done |].
  unfold registered. cbn [app upgrade_loop]. rewrite bind_mret_r.
  by apply upgrade_local_returns.
Qed.

End ParserWithUpgrade.

(** * The further properties on the sample inputs *)

Lemma missing_class_raises_type_error_witness :
  raises
    (Docs.parse
       (Sample.to_xml
          (Sample.didl [Sample.local_track; Docs.noclass_item; Sample.album])))
    (TypeError "argument of type 'NoneType' is not iterable").
Proof.
  refine (proj1 (missing_class_raises_type_error Docs.fromstring Sample.iter
                   Sample.tag Sample.findtext Sample.ns_tag
                   Sample._DIDL_CLASS_TO_CLASS Sample._UPGRADE_FUNCTIONS
                   _ (Sample.didl [Sample.local_track; Docs.noclass_item;
                                   Sample.album])
                   [Sample.local_track] [Sample.album] Docs.noclass_item
                   [Sample.local_song] _ _ _ _ _)).
  - vm_compute. reflexivity.
  - reflexivity.
  - vm_compute. reflexivity.
  - left. exists "". reflexivity.
  - reflexivity.
Defined.

Lemma callee_error_aborts_parse_witness :
  raises
    (Docs.parse_failing
       (Sample.to_xml (Sample.didl [Sample.local_track; Sample.album])))
    (PyError "RuntimeError" "upgrade failed").
Proof.
  refine (proj1 (callee_error_aborts_parse Docs.fromstring Sample.iter
                   Sample.tag Sample.findtext Sample.ns_tag
                   Sample._DIDL_CLASS_TO_CLASS
                   (registered Sample._UPGRADE_FUNCTIONS Docs.failing_upgrade)
                   _ (Sample.didl [Sample.local_track; Sample.album])
                   [] [Sample.album] Sample.local_track []
                   "object.item.audioItem.musicTrack"
                   (Sample.didl_class "DidlMusicTrack")
                   (PyError "RuntimeError" "upgrade failed")
                   _ _ _ _ _ _ _)).
  - vm_compute. reflexivity.
  - reflexivity.
  - reflexivity.
  - reflexivity.
  - reflexivity.
  - vm_compute. reflexivity.
  - right. exists Sample.local_song. split; vm_compute; reflexivity.
Defined.

Lemma parse_log_witness :
  map log_level
    (Docs.parse
       (Sample.to_xml (Sample.didl [Sample.local_track; Docs.service_track]))).2
  = [DEBUG; DEBUG; ERROR].
Proof.
  destruct (returns_or_raises
              (Docs.parse
                 (Sample.to_xml
                    (Sample.didl [Sample.local_track; Docs.service_track]))))
    as [[items Hret] | [e He]].
  - unfold Docs.parse.
    rewrite (proj1 (proj2 (parse_log Docs.fromstring Sample.iter Sample.tag
                             Sample.findtext Sample.ns_tag
                             Sample._DIDL_CLASS_TO_CLASS
                             Sample._UPGRADE_FUNCTIONS
                             (Sample.to_xml
                                (Sample.didl [Sample.local_track;
                                              Docs.service_track]))))
               (Sample.didl [Sample.local_track; Docs.service_track])
               items).
    + vm_compute. reflexivity.
    + vm_compute. reflexivity.
    + exact Hret.
  - vm_compute in He. discriminate He.
Defined.

Lemma parse_empty_document_witness :
  Docs.parse (Sample.to_xml (Sample.didl []))
  = (Ok [],
     [mkLog ERROR created_msg
        [ArgList []; ArgStr (Sample.to_xml (Sample.didl []))]]).
Proof.
  apply (parse_empty_document Docs.fromstring Sample.iter Sample.tag
           Sample.findtext Sample.ns_tag Sample._DIDL_CLASS_TO_CLASS
           Sample._UPGRADE_FUNCTIONS _ (Sample.didl [])).
  - vm_compute. reflexivity.
  - reflexivity.
Defined.

Lemma parse_concat_witness :
  returns
    (Docs.parse (Sample.to_xml (Sample.didl [Sample.local_track; Sample.album])))
    ([Sample.local_song] ++
     [Sample.Didl "DidlAlbum" "A:ALBUM/x" (Some "X") []])%list.
Proof.
  apply (parse_concat Docs.fromstring Sample.iter Sample.tag Sample.findtext
           Sample.ns_tag Sample._DIDL_CLASS_TO_CLASS Sample._UPGRADE_FUNCTIONS
           (Sample.to_xml (Sample.didl [Sample.local_track]))
           (Sample.to_xml (Sample.didl [Sample.album]))
           _
           (Sample.didl [Sample.local_track]) (Sample.didl [Sample.album])
           (Sample.didl [Sample.local_track; Sample.album])).
  - vm_compute. reflexivity.
  - vm_compute. reflexivity.
  - vm_compute. reflexivity.
  - reflexivity.
  - vm_compute. reflexivity.
  - vm_compute. reflexivity.
Defined.

Lemma upgraded_object_fields_witness :
  exists args,
    returns (Sample.upgrade Docs.untitled_song)
            (Sample.MusicService "MediaMetadataTrack" args) /\
    kw_resources args
    = [mkResource "x-sonos-http:/dir.v2/u.mp3?sid=2"
         "sonos.com-http:*:audio/mpeg:*";
       mkResource "x-file-cifs://a/u.mp3" "http-get:*:audio/mpeg:*"] /\
    kw_uri args = "x-sonos-http:/dir.v2/u.mp3?sid=2" /\
    kw_desc args = "RINCON_AssociatedZPUDN" /\
    (forall k, kw_metadata_dict args !! k
               = if decide (k = "title") then None else None) /\
    exists rest, kw_item_id args = "11111111" ++ rest.
Proof.
  exact (proj1
           (@upgraded_object_fields _ Sample.PyObj_DidlLike Sample.get_class
              Sample.desc_from_uri
              UrlLib.urlparse Docs.untitled_song
              (mkResource "x-sonos-http:/dir.v2/u.mp3?sid=2"
                 "sonos.com-http:*:audio/mpeg:*")
              [mkResource "x-file-cifs://a/u.mp3" "http-get:*:audio/mpeg:*"]
              "MediaMetadataTrack" (Sample.MusicService "MediaMetadataTrack")
              eq_refl eq_refl eq_refl eq_refl)
           (UrlLib.mkParseResult "x-sonos-http" "" "/dir.v2/u.mp3" ""
              "sid=2" "")
           eq_refl).
Defined.

Lemma upgraded_item_id_extension_witness :
  exists args,
    returns (Sample.upgrade Docs.untitled_song)
            (Sample.MusicService "MediaMetadataTrack" args) /\
    kw_item_id args = "11111111/dir.v2/u".
Proof.
  destruct (proj1
              (@upgraded_item_id_extension _ Sample.PyObj_DidlLike
                 Sample.get_class Sample.desc_from_uri
                 UrlLib.urlparse Docs.untitled_song
                 (mkResource "x-sonos-http:/dir.v2/u.mp3?sid=2"
                    "sonos.com-http:*:audio/mpeg:*")
                 [mkResource "x-file-cifs://a/u.mp3" "http-get:*:audio/mpeg:*"]
                 "MediaMetadataTrack"
                 (Sample.MusicService "MediaMetadataTrack")
                 eq_refl eq_refl eq_refl eq_refl)
              (UrlLib.mkParseResult "x-sonos-http" "" "/dir.v2/u.mp3" ""
                 "sid=2" "")
              eq_refl)
    as (args & Hret & Hext & _).
  exists args. split; [exact Hret |].
  apply (Hext "/dir.v2/u" "mp3"); reflexivity.
Defined.

Lemma get_class_key_error_warns_witness :
  Docs.upgrade_no_class Sample.song_a
  = (Ok Sample.song_a,
     [mkLog WARNING upgrade_fail_msg [ArgStr "DidlMusicTrack"]]).
Proof.
  refine (proj1
            (@get_class_key_error_warns _ Sample.PyObj_DidlLike Docs.no_class
               Sample.desc_from_uri
               UrlLib.urlparse Sample.song_a Sample.song_a_resource []
               "MediaMetadataTrack" _ _ _ _)
            (UrlLib.mkParseResult "x-sonos-http" "abc123.mp3" "" "" "" "") _).
  - reflexivity.
  - reflexivity.
  - vm_compute. reflexivity.
  - reflexivity.
  - vm_compute. reflexivity.
Defined.

Lemma only_music_tracks_upgraded_witness :
  returns (Sample.upgrade Sample.album_a) Sample.album_a.
Proof.
  refine (proj2 (proj2
            (@only_music_tracks_upgraded _ Sample.PyObj_DidlLike
               Sample.get_class Sample.desc_from_uri
               UrlLib.urlparse Sample.album_a _)) _).
  - discriminate.
  - intros r rs e [= <- <-] _. vm_compute. discriminate.
Defined.

Lemma local_document_parses_unchanged_witness :
  returns
    (Docs.parse (Sample.to_xml (Sample.didl [Sample.local_track; Sample.album])))
    [Sample.local_song; Sample.Didl "DidlAlbum" "A:ALBUM/x" (Some "X") []].
Proof.
  apply (@local_document_parses_unchanged _ _ Sample.PyObj_DidlLike
           Docs.fromstring Sample.iter
           Sample.tag Sample.findtext Sample.ns_tag
           Sample._DIDL_CLASS_TO_CLASS Sample.get_class Sample.desc_from_uri
           UrlLib.urlparse _
           (Sample.didl [Sample.local_track; Sample.album])).
  - vm_compute. reflexivity.
  - repeat constructor.
    + exists "object.item.audioItem.musicTrack",
        (Sample.didl_class "DidlMusicTrack").
      split; [reflexivity |]. split; [vm_compute; reflexivity |].
      split; [reflexivity |]. right. eexists _, _. split; reflexivity.
    + exists "object.container.album", (Sample.didl_class "DidlAlbum").
      split; [reflexivity |]. split; [vm_compute; reflexivity |].
      split; [reflexivity |]. left. reflexivity.
Defined.

(** * Facts about the playlist manager *)

Lemma dev_bind_run {E A B : Type} (m : Dev E A) (f : A -> Dev E B)
    (h : list E) :
  (m ≫= f) h
  = match m h with
    | (Ok a, h') => f a h'
    | (Raise e, h') => (Raise e, h')
    end.
Proof. reflexivity. Qed.

Lemma dev_lift_bind {E A B : Type} (r : result A) (f : A -> Dev E B)
    (h : list E) :
  (dev_lift r ≫= f) h
  = match r with
    | Ok a => f a h
    | Raise e => (Raise e, h)
    end.
Proof. by destruct r. Qed.

Lemma dev_mret_bind {E A B : Type} (a : A) (f : A -> Dev E B) (h : list E) :
  (mret a ≫= f) h = f a h.
Proof. reflexivity. Qed.

Lemma default_last_cons {A : Type} (d x : A) (l : list A) :
  default d (last (x :: l)) = default x (last l).
Proof.
  revert d x. induction l as [|y l IH]; intros d x; [done |].
  change (last (x :: y :: l)) with (last (y :: l)).
  by rewrite (IH d y), (IH x y).
Qed.

Lemma split_first_none (sep : ascii) (s : string) :
  PyStr.split_first sep s = None <-> PyStr.contains s (String sep "") = false.
Proof.
  induction s as [|c s IH]; [done |].
  cbn [PyStr.split_first PyStr.contains PyStr.startswith].
  rewrite (Ascii.eqb_sym c sep). destruct (Ascii.eqb sep c).
  - by destruct s.
  - destruct (PyStr.split_first sep s) as [[h t]|].
    + split; [done |]. intros Hs. by apply IH in Hs.
    + split; [intros _; by apply IH | done].
Qed.

Lemma split_first_app (sep : ascii) (a b : string) :
  PyStr.contains a (String sep "") = false ->
  PyStr.split_first sep (a ++ String sep b) = Some (a, b).
Proof.
  induction a as [|c a IH]; intros Ha.
  - simpl. by rewrite Ascii.eqb_refl.
  - cbn [PyStr.contains PyStr.startswith] in Ha.
    change (String c a ++ String sep b) with (String c (a ++ String sep b)).
    cbn [PyStr.split_first]. rewrite (Ascii.eqb_sym c sep).
    destruct (Ascii.eqb sep c); [by destruct a |].
    by rewrite IH.
Qed.

Section PlaylistFacts.
Context {P : Type}.
Variable pl_item_id : P -> string.
Variable int_str : string -> result Z.
Variable upnp : list (Event P) -> Event P -> result (gmap string atom).

Local Abbreviation loop := (reorder_loop int_str upnp).
Local Abbreviation reorder := (reorder_sonos_playlist pl_item_id int_str upnp).
Local Abbreviation int_field :=
  (fun (r : gmap string atom) (k : string) => getitem r k ≫= py_int int_str).

(** Pairs that are no moves leave everything as it is. *)
Lemma reorder_loop_no_moves (oid : string) (pairs : list (value * value))
    (c : Z) (u : atom) (r : option (gmap string atom)) (h : list (Event P)) :
  moves pairs = [] ->
  loop oid pairs c u r h = (Ok (c, u, r), h).
Proof.
  induction pairs as [|[t p] rest IH]; [done |].
  unfold moves. cbn [List.filter fst snd reorder_loop].
  destruct (py_eq t p); [apply IH | done].
Qed.

(** A run of the loop that returns: the events sent are the requests for
    the moves, in order; the first carries the update id the loop started
    with and each later one the [NewUpdateID] of the answer before it; the
    change is the sum of the [QueueLengthChange] of the answers. *)
Lemma reorder_loop_run (oid : string) (pairs : list (value * value))
    (c : Z) (u : atom) (r0 : option (gmap string atom)) (h : list (Event P))
    (c' : Z) (u' : atom) (r' : option (gmap string atom))
    (h' : list (Event P)) :
  loop oid pairs c u r0 h = (Ok (c', u', r'), h') ->
  exists rs ds us,
    h' = (h ++ zip_with (fun u tp => reorder_event oid u tp.1 tp.2)
                 (u :: (AInt <$> us)) (moves pairs))%list /\
    length rs = length (moves pairs) /\
    answers upnp h
      (zip_with (fun u tp => reorder_event oid u tp.1 tp.2)
         (u :: (AInt <$> us)) (moves pairs))
    = Ok <$> rs /\
    Forall2 (fun r d => int_field r "QueueLengthChange" = Ok d) rs ds /\
    Forall2 (fun r n => int_field r "NewUpdateID" = Ok n) rs us /\
    c' = (c + sum_Z ds)%Z /\
    u' = default u (last (AInt <$> us)) /\
    r' = default r0 (last (Some <$> rs)).
Proof.
  revert c u r0 h. induction pairs as [|[t p] rest IH]; intros c u r0 h Hrun.
  - injection Hrun as <- <- <- <-. exists [], [], []. cbn.
    rewrite app_nil_r. repeat split; try done; [constructor .. | lia].
  - cbn [reorder_loop] in Hrun. unfold moves. cbn [List.filter fst snd].
    destruct (py_eq t p) eqn:Heq; [by apply IH |].
    cbn [negb].
    rewrite dev_bind_run in Hrun. unfold call in Hrun.
    destruct (upnp h (reorder_event oid u t p)) as [r|e] eqn:Hr; [| done].
    rewrite dev_bind_run in Hrun. unfold dev_lift in Hrun.
    destruct (getitem r "QueueLengthChange" ≫= py_int int_str)
      as [d|e] eqn:Hd; [| done].
    rewrite dev_bind_run in Hrun.
    destruct (getitem r "NewUpdateID" ≫= py_int int_str)
      as [n|e] eqn:Hn; [| done].
    apply IH in Hrun as (rs & ds & us & -> & Hlen & Hans & Hds & Hus & -> & -> & ->).
    exists (r :: rs), (d :: ds), (n :: us). fold (moves rest).
    set (F := fun (u : atom) (tp : value * value) =>
                reorder_event (P := P) oid u tp.1 tp.2) in *.
    set (evs := zip_with F (AInt n :: (AInt <$> us)) (moves rest)) in *.
    change (zip_with F (u :: (AInt <$> n :: us)) ((t, p) :: moves rest))
      with (reorder_event oid u t p :: evs).
    change (AInt <$> n :: us) with (AInt n :: (AInt <$> us)).
    change (Some <$> r :: rs) with (Some r :: (Some <$> rs)).
    cbn [answers length fmap list_fmap].
    rewrite Hr, Hans, Hlen, <- app_assoc, !default_last_cons.
    repeat split; try done; [by constructor .. |].
    unfold sum_Z. cbn [foldr]. lia.
Qed.

End PlaylistFacts.

Section PlaylistRuns.
Context {P : Type}.
Variable pl_item_id : P -> string.
Variable int_str : string -> result Z.
Variable upnp : list (Event P) -> Event P -> result (gmap string atom).

Local Abbreviation reorder := (reorder_sonos_playlist pl_item_id int_str upnp).
Local Abbreviation int_field :=
  (fun (r : gmap string atom) (k : string) => getitem r k ≫= py_int int_str).

(** A reorder that returns, in full: the lists, the update id [u0] and the
    response [r0] the loop starts with (those of the search when
    [update_id] is 0), the answers [rs] to the requests, and the dictionary
    returned. *)
Lemma reorder_run (sp : playlist_ref P) (tracks new_pos : value) (u : atom)
    (h h' : list (Event P)) (d : gmap string atom) :
  reorder sp tracks new_pos u h = (Ok d, h') ->
  exists tl pl u0 r0 rs ds us rl len,
    track_and_position_lists tracks new_pos = Ok (tl, pl) /\
    (if atom_eq u (AInt 0)
     then exists sr,
            upnp h (MusicLibSearch (object_id_of pl_item_id sp) 0 1) = Ok sr /\
            getitem sr "UpdateID" = Ok u0 /\ r0 = Some sr
     else u0 = u /\ r0 = None) /\
    h' = (h ++
          (if atom_eq u (AInt 0)
           then [MusicLibSearch (object_id_of pl_item_id sp) 0 1] else []) ++
          zip_with (fun u tp =>
                      reorder_event (object_id_of pl_item_id sp) u tp.1 tp.2)
            (u0 :: (AInt <$> us)) (moves (zip tl pl)))%list /\
    length rs = length (moves (zip tl pl)) /\
    answers upnp
      (h ++ (if atom_eq u (AInt 0)
             then [MusicLibSearch (object_id_of pl_item_id sp) 0 1]
             else []))%list
      (zip_with (fun u tp =>
                   reorder_event (object_id_of pl_item_id sp) u tp.1 tp.2)
         (u0 :: (AInt <$> us)) (moves (zip tl pl)))
    = Ok <$> rs /\
    Forall2 (fun r d => int_field r "QueueLengthChange" = Ok d) rs ds /\
    Forall2 (fun r n => int_field r "NewUpdateID" = Ok n) rs us /\
    default r0 (last (Some <$> rs)) = Some rl /\
    int_field rl "NewQueueLength" = Ok len /\
    d = {[ "change" := AInt (sum_Z ds);
           "update_id" := default u0 (last (AInt <$> us));
           "length" := AInt len ]}.
Proof.
  unfold reorder_sonos_playlist. intros Hrun.
  rewrite dev_bind_run in Hrun. unfold dev_lift in Hrun.
  destruct (track_and_position_lists tracks new_pos) as [[tl pl]|e] eqn:Hl;
    [| done].
  rewrite dev_bind_run in Hrun. cbn [fst snd] in Hrun.
  set (oid := object_id_of pl_item_id sp) in *.
  assert (exists u0 r0,
    (if atom_eq u (AInt 0)
     then exists sr, upnp h (MusicLibSearch oid 0 1) = Ok sr /\
                     getitem sr "UpdateID" = Ok u0 /\ r0 = Some sr
     else u0 = u /\ r0 = None) /\
    (let hs := (h ++ (if atom_eq u (AInt 0)
                      then [MusicLibSearch oid 0 1] else []))%list in
     (final ← reorder_loop int_str upnp oid (zip tl pl) 0 u0 r0;
      match final.2 with
      | None => dev_raise unbound_response
      | Some response =>
          length ← dev_lift (int_field response "NewQueueLength");
          mret ({[ "change" := AInt final.1.1;
                   "update_id" := final.1.2;
                   "length" := AInt length ]} : gmap string atom)
      end) hs = (Ok d, h'))) as (u0 & r0 & Hstart & Hrest).
  { destruct (atom_eq u (AInt 0)).
    - rewrite dev_bind_run in Hrun. unfold call in Hrun.
      destruct (upnp h (MusicLibSearch oid 0 1)) as [sr|e] eqn:Hsr; [| done].
      rewrite dev_bind_run in Hrun. unfold dev_lift in Hrun.
      destruct (getitem sr "UpdateID") as [u0|e] eqn:Hu0; [| done].
      exists u0, (Some sr). split; [by exists sr | done].
    - exists u, None. rewrite app_nil_r. done. }
  clear Hrun. cbn zeta in Hrest. rewrite dev_bind_run in Hrest.
  destruct (reorder_loop int_str upnp oid (zip tl pl) 0 u0 r0 _)
    as [[[[c' u'] r']|e] h''] eqn:Hloop; [| done].
  cbn [fst snd] in Hrest.
  destruct r' as [rl|]; [| done].
  rewrite dev_bind_run in Hrest. unfold dev_lift in Hrest.
  destruct (getitem rl "NewQueueLength" ≫= py_int int_str)
    as [len|e] eqn:Hlen; [| done].
  injection Hrest as <- <-.
  apply reorder_loop_run in Hloop
    as (rs & ds & us & -> & Hn & Hans & Hds & Hus & -> & -> & Hrl).
  exists tl, pl, u0, r0, rs, ds, us, rl, len.
  rewrite <- app_assoc. rewrite Z.add_0_l. done.
Qed.

End PlaylistRuns.

(** * Properties of the playlist manager *)

Section PlaylistProperties.
Context {P : Type}.
Variable DidlPlaylistContainer : PlaylistArgs -> P.
Variable pl_item_id : P -> string.
Variable pl_getattr : P -> string -> option atom.
Variable int_str : string -> result Z.
Variable upnp : list (Event P) -> Event P -> result (gmap string atom).
Variable browse_total_matches : list (Event P) -> P -> result Z.
Variable music_library_get_sonos_playlists : list (Event P) -> result (list P).

Local Abbreviation make := (_make_playlist_container DidlPlaylistContainer).
Local Abbreviation create := (create_sonos_playlist DidlPlaylistContainer upnp).
Local Abbreviation reorder := (reorder_sonos_playlist pl_item_id int_str upnp).
Local Abbreviation by_attr :=
  (get_sonos_playlist_by_attr pl_getattr music_library_get_sonos_playlists).
Local Abbreviation int_field :=
  (fun (r : gmap string atom) (k : string) => getitem r k ≫= py_int int_str).

(** X13.  [_make_playlist_container] takes the text between the first and
    the second colon of the id as the number of the saved queue: for an id
    [a:b], and for an id [a:b:c], the container has the one resource
    [file:///jffs/settings/savedqueues.rsq#b], the parent [SQ:], and the id
    and title given; an id without a colon raises [IndexError]. *)
Theorem playlist_container_from_id (item_id title : string) :
  (PyStr.contains item_id ":" = false ->
   make item_id title
   = Raise (PyError "IndexError" "list index out of range")) /\
  (forall a b,
     PyStr.contains a ":" = false -> PyStr.contains b ":" = false ->
     (item_id = a ++ ":" ++ b \/ exists c, item_id = a ++ ":" ++ b ++ ":" ++ c) ->
     make item_id title
     = Ok (DidlPlaylistContainer
             {| pc_resources :=
                  [mkResource ("file:///jffs/settings/savedqueues.rsq#" ++ b)
                     "x-rincon-playlist:*:*:*"];
                pc_title := title;
                pc_parent_id := "SQ:";
                pc_item_id := item_id |})).
Proof.
  unfold _make_playlist_container. split.
  - intros Hno%split_first_none. cbn [PyStr.split_max]. by rewrite Hno.
  - intros a b Ha Hb Hid.
    assert (PyStr.split_max ":" 2 item_id !! 1%nat = Some b) as ->; [| done].
    cbn [PyStr.split_max]. destruct Hid as [-> | [c ->]].
    + change (a ++ ":" ++ b) with (a ++ String ":" b).
      rewrite (split_first_app ":" a b Ha).
      apply split_first_none in Hb. by rewrite Hb.
    + change (a ++ ":" ++ b ++ ":" ++ c) with (a ++ String ":" (b ++ String ":" c)).
      rewrite (split_first_app ":" a _ Ha).
      by rewrite (split_first_app ":" b c Hb).
Qed.

(** X14.  [create_sonos_playlist] sends one [CreateSavedQueue] and builds
    the container from the [AssignedObjectID] of the answer; an answer
    without this key raises [KeyError] after the request was sent. *)
Theorem create_sonos_playlist_run (title : string) (h : list (Event P))
    (response : gmap string atom) :
  upnp h (UPnP "avTransport" "CreateSavedQueue"
            [("InstanceID", VAtom (AInt 0)); ("Title", VAtom (AStr title));
             ("EnqueuedURI", VAtom (AStr ""));
             ("EnqueuedURIMetaData", VAtom (AStr ""))]) = Ok response ->
  (response !! "AssignedObjectID" = None ->
   create title h
   = (Raise (PyError "KeyError" "AssignedObjectID"),
      h ++ [UPnP "avTransport" "CreateSavedQueue"
              [("InstanceID", VAtom (AInt 0)); ("Title", VAtom (AStr title));
               ("EnqueuedURI", VAtom (AStr ""));
               ("EnqueuedURIMetaData", VAtom (AStr ""))]])%list) /\
  (forall item_id,
     response !! "AssignedObjectID" = Some (AStr item_id) ->
     create title h
     = (make item_id title,
        h ++ [UPnP "avTransport" "CreateSavedQueue"
                [("InstanceID", VAtom (AInt 0)); ("Title", VAtom (AStr title));
                 ("EnqueuedURI", VAtom (AStr ""));
                 ("EnqueuedURIMetaData", VAtom (AStr ""))]])%list).
Proof.
  intros Hr. unfold create_sonos_playlist. split.
  - intros Hk. rewrite dev_bind_run. unfold call. rewrite Hr.
    rewrite dev_bind_run. unfold dev_lift, getitem. by rewrite Hk.
  - intros item_id Hk. rewrite dev_bind_run. unfold call. rewrite Hr.
    rewrite dev_bind_run. unfold dev_lift, getitem. by rewrite Hk.
Qed.

(** X15.  [get_sonos_playlist_by_attr] returns the first playlist whose
    attribute equals the value: the one before which every playlist has the
    attribute with another value. *)
Theorem first_matching_playlist (attr_name : string) (match_ : atom)
    (h : list (Event P)) (pre post : list P) (p : P) :
  music_library_get_sonos_playlists h = Ok (pre ++ p :: post)%list ->
  Forall (fun q => exists v, pl_getattr q attr_name = Some v /\
                             atom_eq v match_ = false) pre ->
  (exists v, pl_getattr p attr_name = Some v /\ atom_eq v match_ = true) ->
  by_attr attr_name match_ h = (Ok p, (h ++ [GetSonosPlaylists])%list).
Proof.
  intros Hpl Hpre (v & Hv & Hm). unfold get_sonos_playlist_by_attr.
  rewrite dev_bind_run. unfold get_sonos_playlists. rewrite Hpl.
  unfold dev_lift. f_equal. clear Hpl.
  induction Hpre as [|q pre (w & Hw & Hne) _ IH]; cbn [app first_match].
  - by rewrite Hv, Hm.
  - by rewrite Hw, Hne.
Qed.

(** X16.  [get_sonos_playlist_by_attr] raises [ValueError] exactly when
    every playlist has the attribute with a value other than the one asked
    for; the playlists are fetched once. *)
Theorem no_matching_playlist (attr_name : string) (match_ : atom)
    (h : list (Event P)) (playlists : list P) :
  music_library_get_sonos_playlists h = Ok playlists ->
  (by_attr attr_name match_ h).2 = (h ++ [GetSonosPlaylists])%list /\
  ((by_attr attr_name match_ h).1
   = Raise (PyError "ValueError" (no_match_msg attr_name match_)) <->
   Forall (fun q => exists v, pl_getattr q attr_name = Some v /\
                              atom_eq v match_ = false) playlists).
Proof.
  intros Hpl. unfold get_sonos_playlist_by_attr.
  rewrite dev_bind_run. unfold get_sonos_playlists. rewrite Hpl.
  unfold dev_lift. cbn [fst snd]. split; [done |]. clear Hpl.
  induction playlists as [|q pls IH]; cbn [first_match].
  - split; [by constructor | done].
  - destruct (pl_getattr q attr_name) as [v|] eqn:Hv.
    + destruct (atom_eq v match_) eqn:Hm.
      * split; [done |]. intros Hall. apply Forall_cons in Hall as [(w & Hw & Hne) _].
        congruence.
      * rewrite IH. split.
        -- intros Hall. constructor; [by exists v | done].
        -- by intros [_ Hall]%Forall_cons.
    + split; [done |]. intros Hall. apply Forall_cons in Hall as [(w & Hw & _) _].
      congruence.
Qed.

(** X17.  A reorder in which no pair is a move, called with an update id
    other than 0, sends nothing and raises [UnboundLocalError]: [response]
    is read after the loop and was never assigned. *)
Theorem reorder_without_moves_raises (sp : playlist_ref P)
    (tracks new_pos : value) (u : atom) (h : list (Event P))
    (tl pl : list value) :
  track_and_position_lists tracks new_pos = Ok (tl, pl) ->
  moves (zip tl pl) = [] ->
  atom_eq u (AInt 0) = false ->
  reorder sp tracks new_pos u h = (Raise unbound_response, h).
Proof.
  intros Hl Hm Hu. unfold reorder_sonos_playlist.
  rewrite dev_lift_bind, Hl, Hu.
  rewrite dev_mret_bind. cbn [fst snd]. rewrite dev_bind_run.
  by rewrite reorder_loop_no_moves.
Qed.

(** X18.  Moving a track to the position it already has, with an update id
    other than 0, is no no-op: nothing is sent and [UnboundLocalError] is
    raised. *)
Theorem move_to_same_position_raises (sp : playlist_ref P)
    (track new_pos u : atom) (t : Z) (h : list (Event P)) :
  py_int int_str track = Ok t ->
  py_int int_str new_pos = Ok t ->
  atom_eq u (AInt 0) = false ->
  move_in_sonos_playlist pl_item_id int_str upnp sp track new_pos u h
  = (Raise unbound_response, h).
Proof.
  intros Ht Hn Hu. unfold move_in_sonos_playlist.
  rewrite dev_lift_bind, Ht, dev_lift_bind, Hn.
  unfold reorder_sonos_playlist.
  rewrite dev_lift_bind. cbn [track_and_position_lists]. rewrite Hu.
  rewrite dev_mret_bind. cbn [fst snd]. rewrite dev_bind_run.
  rewrite reorder_loop_no_moves; [done |].
  unfold moves. cbn [zip zip_with List.filter fst snd py_eq atom_eq].
  by rewrite Z.eqb_refl.
Qed.

End PlaylistProperties.

Section ReorderProperties.
Context {P Obj : Type} `{DidlLike Obj}.
Variable pl_item_id : P -> string.
Variable pl_getattr : P -> string -> option atom.
Variable int_str : string -> result Z.
Variable upnp : list (Event P) -> Event P -> result (gmap string atom).
Variable browse_total_matches : list (Event P) -> P -> result Z.
Variable music_library_get_sonos_playlists : list (Event P) -> result (list P).
Variable to_didl_string : Obj -> result string.

Local Abbreviation reorder := (reorder_sonos_playlist pl_item_id int_str upnp).
Local Abbreviation int_field :=
  (fun (r : gmap string atom) (k : string) => getitem r k ≫= py_int int_str).
Local Abbreviation clear :=
  (clear_sonos_playlist pl_item_id pl_getattr int_str upnp
     browse_total_matches music_library_get_sonos_playlists).

(** X19.  A reorder that returns has sent one
    [ReorderTracksInSavedQueue] for every pair whose track differs from its
    position, in the order of the pairs, and nothing for the other pairs,
    after one search when the update id given is 0.  The first request
    carries the update id given (that of the search when it is 0) and each
    later request the [NewUpdateID] of the answer to the request before
    it. *)
Theorem reorder_sends_the_moves (sp : playlist_ref P)
    (tracks new_pos : value) (u : atom) (h h' : list (Event P))
    (d : gmap string atom) :
  reorder sp tracks new_pos u h = (Ok d, h') ->
  exists tl pl u0 rs us,
    track_and_position_lists tracks new_pos = Ok (tl, pl) /\
    (if atom_eq u (AInt 0)
     then exists sr,
            upnp h (MusicLibSearch (object_id_of pl_item_id sp) 0 1) = Ok sr /\
            getitem sr "UpdateID" = Ok u0
     else u0 = u) /\
    h' = (h ++
          (if atom_eq u (AInt 0)
           then [MusicLibSearch (object_id_of pl_item_id sp) 0 1] else []) ++
          zip_with (fun u tp =>
                      reorder_event (object_id_of pl_item_id sp) u tp.1 tp.2)
            (u0 :: (AInt <$> us)) (moves (zip tl pl)))%list /\
    length us = length (moves (zip tl pl)) /\
    answers upnp
      (h ++ (if atom_eq u (AInt 0)
             then [MusicLibSearch (object_id_of pl_item_id sp) 0 1]
             else []))%list
      (zip_with (fun u tp =>
                   reorder_event (object_id_of pl_item_id sp) u tp.1 tp.2)
         (u0 :: (AInt <$> us)) (moves (zip tl pl)))
    = Ok <$> rs /\
    Forall2 (fun r n => int_field r "NewUpdateID" = Ok n) rs us.
Proof.
  intros (tl & pl & u0 & r0 & rs & ds & us & rl & len & Hl & Hstart & -> &
          Hlen & Hans & _ & Hus & _)%reorder_run.
  exists tl, pl, u0, rs, us. split; [done |]. split.
  { destruct (atom_eq u (AInt 0)); [| by destruct Hstart].
    destruct Hstart as (sr & ? & ? & _). by exists sr. }
  split; [done |]. split; [| done].
  by rewrite <- (Forall2_length _ _ _ Hus).
Qed.

(** X20.  The dictionary a reorder returns, for an update id other than 0:
    [change] is the sum of the [QueueLengthChange] of the answers to the
    requests sent, and [update_id] and [length] are the [NewUpdateID] and
    [NewQueueLength] of the last answer. *)
Theorem reorder_result (sp : playlist_ref P) (tracks new_pos : value)
    (u : atom) (h h' : list (Event P)) (d : gmap string atom) :
  reorder sp tracks new_pos u h = (Ok d, h') ->
  atom_eq u (AInt 0) = false ->
  exists rs ds rl n len,
    answers upnp h (drop (length h) h') = Ok <$> rs /\
    Forall2 (fun r x => int_field r "QueueLengthChange" = Ok x) rs ds /\
    last rs = Some rl /\
    int_field rl "NewUpdateID" = Ok n /\
    int_field rl "NewQueueLength" = Ok len /\
    d = {[ "change" := AInt (sum_Z ds);
           "update_id" := AInt n;
           "length" := AInt len ]}.
Proof.
  intros (tl & pl & u0 & r0 & rs & ds & us & rl & len & Hl & Hstart & -> &
          Hlen & Hans & Hds & Hus & Hrl & Hql & ->)%reorder_run Hu.
  rewrite Hu in *. destruct Hstart as [-> ->].
  rewrite fmap_last in Hrl. destruct (last rs) as [rl'|] eqn:Hlast; [| done].
  injection Hrl as ->.
  pose proof (Forall2_last _ _ _ Hus) as Hlu. rewrite Hlast in Hlu.
  inversion Hlu as [? n Hn Heq1 Heq2|]; subst.
  exists rs, ds, rl, n, len.
  rewrite app_nil_l, drop_app_length. rewrite app_nil_r in Hans.
  rewrite fmap_last, <- Heq2. done.
Qed.

(** X21.  Clearing a playlist that has no track sends no reorder: after the
    browse the dictionary is returned with the change 0, the update id
    given and the length the browse gave. *)
Theorem clear_empty_playlist (p : P) (u : atom) (h : list (Event P))
    (count : Z) :
  browse_total_matches h p = Ok count ->
  (count <= 0)%Z ->
  clear (ByObj p) u h
  = (Ok {[ "change" := AInt 0; "update_id" := u; "length" := AInt count ]},
     (h ++ [Browse p])%list).
Proof.
  intros Hb Hc. unfold clear_sonos_playlist.
  rewrite dev_mret_bind, dev_bind_run. unfold browse. rewrite Hb.
  by rewrite seqZ_nil.
Qed.

(** The text of the indices of a playlist that has tracks starts with 0. *)
Lemma tracks_text_nonempty (count : Z) :
  (0 < count)%Z ->
  exists rest,
    String.concat "," ((fun x => py_str (AInt x)) <$> seqZ 0 count)
    = String "0" rest.
Proof.
  intros Hc. rewrite seqZ_cons by done. rewrite fmap_cons.
  generalize ((fun x => py_str (AInt x)) <$> seqZ (Z.succ 0) (Z.pred count)).
  change (py_str (AInt 0)) with "0".
  intros [|y l]; cbn [String.concat]; by eexists.
Qed.

(** X22.  Clearing a playlist that has tracks, with an update id other than
    0, sends after the browse exactly one reorder: its track list is the
    text of all indices from 0, joined by commas, and its position list is
    empty; the dictionary returned is made of the answer to it. *)
Theorem clear_playlist_with_tracks (p : P) (u : atom) (h : list (Event P))
    (count : Z) (r : gmap string atom) (x n len : Z) :
  browse_total_matches h p = Ok count ->
  (0 < count)%Z ->
  atom_eq u (AInt 0) = false ->
  upnp (h ++ [Browse p])%list
    (reorder_event (pl_item_id p) u
       (VAtom (AStr (String.concat ","
                       ((fun x => py_str (AInt x)) <$> seqZ 0 count))))
       (VAtom (AStr ""))) = Ok r ->
  int_field r "QueueLengthChange" = Ok x ->
  int_field r "NewUpdateID" = Ok n ->
  int_field r "NewQueueLength" = Ok len ->
  clear (ByObj p) u h
  = (Ok {[ "change" := AInt x; "update_id" := AInt n; "length" := AInt len ]},
     (h ++ [Browse p;
            reorder_event (pl_item_id p) u
              (VAtom (AStr (String.concat ","
                              ((fun x => py_str (AInt x)) <$> seqZ 0 count))))
              (VAtom (AStr ""))])%list).
Proof.
  intros Hb Hc Hu Hr Hx Hn Hlen. unfold clear_sonos_playlist.
  rewrite dev_mret_bind, dev_bind_run. unfold browse. rewrite Hb.
  destruct (tracks_text_nonempty count Hc) as [rest Ht].
  set (tracks := String.concat _ _) in *.
  assert (String.eqb tracks "" = false) as Hne by (by rewrite Ht).
  rewrite Hne. cbn [negb]. unfold reorder_sonos_playlist.
  rewrite dev_lift_bind. cbn [track_and_position_lists]. rewrite Hu.
  rewrite dev_mret_bind. cbn [fst snd zip zip_with reorder_loop py_eq atom_eq object_id_of].
  rewrite Hne. rewrite dev_bind_run. rewrite dev_bind_run.
  unfold call. rewrite Hr.
  rewrite dev_lift_bind, Hx, dev_lift_bind, Hn. cbn [mret Dev_ret fst snd].
  rewrite dev_lift_bind, Hlen.
  rewrite Z.add_0_l, <- app_assoc. done.
Qed.

(** X23.  Removing a track, with an update id other than 0, always sends
    exactly one reorder: its track list is the index and its position list
    the empty text, which stands for [None]. *)
Theorem remove_sends_one_request (sp : playlist_ref P) (track u : atom)
    (t : Z) (h : list (Event P)) (r : gmap string atom) (x n len : Z) :
  py_int int_str track = Ok t ->
  atom_eq u (AInt 0) = false ->
  upnp h (reorder_event (object_id_of pl_item_id sp) u (VAtom (AInt t))
            (VAtom (AStr ""))) = Ok r ->
  int_field r "QueueLengthChange" = Ok x ->
  int_field r "NewUpdateID" = Ok n ->
  int_field r "NewQueueLength" = Ok len ->
  remove_from_sonos_playlist pl_item_id int_str upnp sp track u h
  = (Ok {[ "change" := AInt x; "update_id" := AInt n; "length" := AInt len ]},
     (h ++ [reorder_event (object_id_of pl_item_id sp) u (VAtom (AInt t))
              (VAtom (AStr ""))])%list).
Proof.
  intros Ht Hu Hr Hx Hn Hlen. unfold remove_from_sonos_playlist.
  rewrite dev_lift_bind, Ht. unfold reorder_sonos_playlist.
  rewrite dev_lift_bind. cbn [track_and_position_lists]. rewrite Hu.
  rewrite dev_mret_bind. cbn [fst snd zip zip_with reorder_loop py_eq atom_eq].
  rewrite dev_bind_run. rewrite dev_bind_run. unfold call. rewrite Hr.
  rewrite dev_lift_bind, Hx, dev_lift_bind, Hn. cbn [mret Dev_ret fst snd].
  rewrite dev_lift_bind, Hlen.
  by rewrite Z.add_0_l.
Qed.

(** X24.  [add_item_to_sonos_playlist] first searches for the update id of
    the playlist; for an item without resources it then raises
    [IndexError] and sends no [AddURIToSavedQueue], and for any other item
    it sends one, with the update id found, the URI of the first resource
    and the index [4294967295]. *)
Theorem add_item_run (queueable_item : Obj) (p : P) (h : list (Event P))
    (response : gmap string atom) (update_id : atom) (metadata : string) :
  upnp h (MusicLibSearch (pl_item_id p) 0 1) = Ok response ->
  response !! "UpdateID" = Some update_id ->
  to_didl_string queueable_item = Ok metadata ->
  match resources queueable_item with
  | [] =>
      add_item_to_sonos_playlist pl_item_id upnp to_didl_string
        queueable_item p h
      = (Raise (PyError "IndexError" "list index out of range"),
         (h ++ [MusicLibSearch (pl_item_id p) 0 1])%list)
  | r :: _ =>
      (add_item_to_sonos_playlist pl_item_id upnp to_didl_string
         queueable_item p h).2
      = (h ++ [MusicLibSearch (pl_item_id p) 0 1;
               UPnP "avTransport" "AddURIToSavedQueue"
                 [("InstanceID", VAtom (AInt 0));
                  ("UpdateID", VAtom update_id);
                  ("ObjectID", VAtom (AStr (pl_item_id p)));
                  ("EnqueuedURI", VAtom (AStr (uri r)));
                  ("EnqueuedURIMetaData", VAtom (AStr metadata));
                  ("AddAtIndex", VAtom (AInt (2 ^ 32 - 1)))]])%list
  end.
Proof.
  intros Hs Hu Hm. unfold add_item_to_sonos_playlist.
  rewrite dev_bind_run. unfold call. rewrite Hs.
  rewrite dev_lift_bind. unfold getitem. rewrite Hu.
  rewrite dev_lift_bind, Hm.
  destruct (resources queueable_item) as [|r rs]; [done |].
  rewrite dev_bind_run. unfold call.
  destruct (upnp (h ++ _)%list _); cbn [snd mret Dev_ret];
    by rewrite <- app_assoc.
Qed.

End ReorderProperties.

(** * The playlist properties on the scripted device *)

Lemma create_sonos_playlist_run_witness :
  Device.create "New" []
  = (_make_playlist_container Device.DidlPlaylistContainer "SQ:12" "New",
     [UPnP "avTransport" "CreateSavedQueue"
        [("InstanceID", VAtom (AInt 0)); ("Title", VAtom (AStr "New"));
         ("EnqueuedURI", VAtom (AStr ""));
         ("EnqueuedURIMetaData", VAtom (AStr ""))]]).
Proof.
  refine (proj2 (create_sonos_playlist_run Device.DidlPlaylistContainer
                   Device.upnp "New" []
                   {[ "AssignedObjectID" := AStr "SQ:12" ]} _) "SQ:12" _).
  - reflexivity.
  - vm_compute. reflexivity.
Defined.

Lemma first_matching_playlist_witness :
  Device.by_attr "title" (AStr "Party") []
  = (Ok (Device.playlist "SQ:3" "Party"), [GetSonosPlaylists]).
Proof.
  refine (first_matching_playlist Device.getattr Device.get_sonos_playlists
            "title" (AStr "Party") []
            [Device.playlist "SQ:1" "Morning"]
            [Device.playlist "SQ:4" "Party"]
            (Device.playlist "SQ:3" "Party") _ _ _).
  - reflexivity.
  - constructor; [| constructor]. exists (AStr "Morning"). split; reflexivity.
  - exists (AStr "Party"). split; reflexivity.
Defined.

Lemma no_matching_playlist_witness :
  (Device.by_attr "title" (AStr "Nope") []).1
  = Raise (PyError "ValueError" (no_match_msg "title" (AStr "Nope"))).
Proof.
  refine (proj2 (proj2 (no_matching_playlist Device.getattr
                          Device.get_sonos_playlists "title" (AStr "Nope") []
                          Device.playlists _)) _).
  - reflexivity.
  - repeat constructor; eexists; split; reflexivity.
Defined.

Lemma reorder_without_moves_raises_witness :
  Device.reorder (ById "SQ:3") (VList [AInt 1; AInt 2])
    (VList [AInt 1; AInt 2]) (AInt 5) []
  = (Raise unbound_response, []).
Proof.
  refine (reorder_without_moves_raises pc_item_id Device.int_str Device.upnp
            (ById "SQ:3") (VList [AInt 1; AInt 2]) (VList [AInt 1; AInt 2])
            (AInt 5) []
            [VAtom (AStr "1"); VAtom (AStr "2")]
            [VAtom (AStr "1"); VAtom (AStr "2")] _ _ _).
  - vm_compute. reflexivity.
  - vm_compute. reflexivity.
  - reflexivity.
Defined.

Lemma move_to_same_position_raises_witness :
  Device.move_in (ById "SQ:3") (AStr "1") (AInt 1) (AInt 5) []
  = (Raise unbound_response, []).
Proof.
  refine (move_to_same_position_raises pc_item_id Device.int_str Device.upnp
            (ById "SQ:3") (AStr "1") (AInt 1) (AInt 5) 1 [] _ _ _).
  - vm_compute. reflexivity.
  - reflexivity.
  - reflexivity.
Defined.

Lemma reorder_sends_the_moves_witness :
  exists us,
    (Device.reorder (ById "SQ:3") (VList [AInt 0; AInt 1; AInt 2])
       (VList [AInt 1; AInt 1; ANone]) (AInt 5) []).2
    = zip_with (fun u tp => reorder_event "SQ:3" u tp.1 tp.2)
        (AInt 5 :: (AInt <$> us))
        [(VAtom (AStr "0"), VAtom (AStr "1"));
         (VAtom (AStr "2"), VAtom (AStr ""))] /\
    length us = 2%nat.
Proof.
  destruct (reorder_sends_the_moves pc_item_id Device.int_str Device.upnp
              (ById "SQ:3") (VList [AInt 0; AInt 1; AInt 2])
              (VList [AInt 1; AInt 1; ANone]) (AInt 5) []
              (Device.reorder (ById "SQ:3") (VList [AInt 0; AInt 1; AInt 2])
                 (VList [AInt 1; AInt 1; ANone]) (AInt 5) []).2
              {[ "change" := AInt (-1); "update_id" := AInt 11;
                 "length" := AInt 2 ]})
    as (tl & pl & u0 & rs & us & Hl & Hu0 & Hev & Hlen & _).
  { vm_compute. reflexivity. }
  injection Hl as <- <-. cbn in Hu0. subst u0.
  exists us. split; [exact Hev | exact Hlen].
Defined.

Lemma reorder_result_witness :
  exists rs ds rl n len,
    answers Device.upnp []
      (drop (length (@nil (Event Device.P)))
         (Device.reorder (ById "SQ:3") (VList [AInt 0; AInt 1; AInt 2])
            (VList [AInt 1; AInt 1; ANone]) (AInt 5) []).2)
    = Ok <$> rs /\
    Forall2 (fun r x => getitem r "QueueLengthChange" ≫= py_int Device.int_str
                        = Ok x) rs ds /\
    last rs = Some rl /\
    getitem rl "NewUpdateID" ≫= py_int Device.int_str = Ok n /\
    getitem rl "NewQueueLength" ≫= py_int Device.int_str = Ok len /\
    ({[ "change" := AInt (-1); "update_id" := AInt 11; "length" := AInt 2 ]}
       : gmap string atom)
    = {[ "change" := AInt (sum_Z ds);
         "update_id" := AInt n;
         "length" := AInt len ]}.
Proof.
  refine (reorder_result pc_item_id Device.int_str Device.upnp
            (ById "SQ:3") (VList [AInt 0; AInt 1; AInt 2])
            (VList [AInt 1; AInt 1; ANone]) (AInt 5) []
            (Device.reorder (ById "SQ:3") (VList [AInt 0; AInt 1; AInt 2])
               (VList [AInt 1; AInt 1; ANone]) (AInt 5) []).2
            {[ "change" := AInt (-1); "update_id" := AInt 11;
               "length" := AInt 2 ]} _ _).
  - vm_compute. reflexivity.
  - reflexivity.
Defined.

Lemma clear_empty_playlist_witness :
  Device.clear (ByObj (Device.playlist "SQ:1" "Morning")) (AInt 9) []
  = (Ok {[ "change" := AInt 0; "update_id" := AInt 9; "length" := AInt 0 ]},
     [Browse (Device.playlist "SQ:1" "Morning")]).
Proof.
  refine (clear_empty_playlist pc_item_id Device.getattr Device.int_str
            Device.upnp Device.browse_total_matches
            Device.get_sonos_playlists (Device.playlist "SQ:1" "Morning")
            (AInt 9) [] 0 _ _).
  - reflexivity.
  - lia.
Defined.

Lemma clear_playlist_with_tracks_witness :
  Device.clear (ByObj (Device.playlist "SQ:3" "Party")) (AInt 5) []
  = (Ok {[ "change" := AInt (-1); "update_id" := AInt 11;
           "length" := AInt 2 ]},
     [Browse (Device.playlist "SQ:3" "Party");
      reorder_event "SQ:3" (AInt 5) (VAtom (AStr "0,1,2"))
        (VAtom (AStr ""))]).
Proof.
  refine (clear_playlist_with_tracks pc_item_id Device.getattr Device.int_str
            Device.upnp Device.browse_total_matches
            Device.get_sonos_playlists (Device.playlist "SQ:3" "Party")
            (AInt 5) [] 3
            {[ "QueueLengthChange" := AStr "-1"; "NewUpdateID" := AStr "11";
               "NewQueueLength" := AStr "2" ]}
            (-1) 11 2 _ _ _ _ _ _ _).
  - reflexivity.
  - lia.
  - reflexivity.
  - vm_compute. reflexivity.
  - vm_compute. reflexivity.
  - vm_compute. reflexivity.
  - vm_compute. reflexivity.
Defined.

Lemma remove_sends_one_request_witness :
  Device.remove_from (ById "SQ:3") (AStr "1") (AInt 4) []
  = (Ok {[ "change" := AInt (-1); "update_id" := AInt 10;
           "length" := AInt 2 ]},
     [reorder_event "SQ:3" (AInt 4) (VAtom (AInt 1)) (VAtom (AStr ""))]).
Proof.
  refine (remove_sends_one_request pc_item_id Device.int_str Device.upnp
            (ById "SQ:3") (AStr "1") (AInt 4) 1 []
            {[ "QueueLengthChange" := AStr "-1"; "NewUpdateID" := AStr "10";
               "NewQueueLength" := AStr "2" ]}
            (-1) 10 2 _ _ _ _ _ _).
  - vm_compute. reflexivity.
  - reflexivity.
  - vm_compute. reflexivity.
  - vm_compute. reflexivity.
  - vm_compute. reflexivity.
  - vm_compute. reflexivity.
Defined.

Lemma add_item_run_witness :
  Device.add_item Sample.no_resources (Device.playlist "SQ:3" "Party") []
  = (Raise (PyError "IndexError" "list index out of range"),
     [MusicLibSearch "SQ:3" 0 1]).
Proof.
  refine (@add_item_run _ _ Sample.PyObj_DidlLike pc_item_id Device.upnp
            Device.to_didl_string Sample.no_resources
            (Device.playlist "SQ:3" "Party") []
            {[ "UpdateID" := AStr "7" ]} (AStr "7")
            "<DIDL-Lite></DIDL-Lite>" _ _ _).
  - reflexivity.
  - vm_compute. reflexivity.
  - reflexivity.
Defined.
